(** * Booking ledger transaction of rollodex2

    A shallow embedding of the stored procedure
    [create_booking_with_wallet_update] declared in
    [supabase/migrations/20250408_transaction_functions.sql], and the
    properties of it that the design document states.

    Conventions of the embedding.
    - [DECIMAL] is PostgreSQL's exact [numeric]; it is embedded in the
      canonical rationals [Qc], where subtraction and comparison are exact
      and equality is Leibniz equality.  Arguments are non-NULL finite values
      of their SQL types.
    - A [JSONB] document is the inductive [jsonb]; an object is a finite map
      from keys to documents (keys of a [jsonb] object are unique).  The
      column [wallets.category_breakdown] holds an object, the mapping from
      category name to balance of the design document; its fields may be
      documents of any kind.
    - A table is the list of its rows.  The place of a row in the list
      stands for the identity of the row, not for the place a scan of the
      server finds it at, which an [UPDATE] may change; [INSERT] adds a row
      at the end.  A [SELECT INTO] without [ORDER BY] takes one of the rows
      that match, here the first of the list.  The tables are declared by
      other migrations; the columns the procedure names are the columns of
      the rows here, and no constraint of those declarations is assumed.
    - The procedure body runs in a state-and-exception monad over the
      database: a [RAISE EXCEPTION] stops the body and hands back the
      database as it is at that point.
    - Two values come from outside the procedure text: the value of [NOW()]
      and the value the column default gives to [service_bookings.id].  They
      are read from a [session].  [session_at] is the session the server
      makes up for a call, with the column default modelled from the design
      document.
    - The three wrappers [begin_transaction], [commit_transaction] and
      [rollback_transaction] run against a [backend], the committed database
      together with the state of the transaction block. *)

From Stdlib Require Import QArith Qcanon Qcabs.
From stdpp Require Import gmap strings list fin_maps.

Local Open Scope Qc_scope.

(** ** SQL values *)

(** [UUID] is a 128-bit number, [TEXT] a character string, [DECIMAL] an exact
    number. *)
Abbreviation uuid := N (only parsing).
Abbreviation text := string (only parsing).
Abbreviation decimal := Qc (only parsing).

(** [a < b] on [DECIMAL], as a boolean. *)
Definition decimal_lt (a b : decimal) : bool :=
  match a ?= b with
  | Lt => true
  | _ => false
  end.

(** A PostgreSQL [interval]: months, days and microseconds are kept apart. *)
Record interval := {
  interval_month : Z;
  interval_day : Z;
  interval_time : Z
}.

(** The literal [INTERVAL '90 days']. *)
Definition interval_90_days : interval :=
  {| interval_month := 0%Z; interval_day := 90%Z; interval_time := 0%Z |}.

(** A [jsonb] document.  Numbers of a [jsonb] document are [numeric]. *)
#[local] Set Warnings "-register-all".
Inductive jsonb :=
| JNull
| JBool (b : bool)
| JNum (d : decimal)
| JStr (s : string)
| JArr (items : list jsonb)
| JObj (fields : gmap string jsonb).

(** [to_jsonb(d)] for a [numeric] value. *)
Definition to_jsonb (d : decimal) : jsonb := JNum d.

(** [jsonb_set(target, ARRAY[key], new_value)] on an object [target], with
    the default [create_missing = true]: the field is replaced, or added when
    it is missing.  The path element is the key itself. *)
Definition jsonb_set (target : gmap string jsonb) (path : text)
    (new_value : jsonb) : gmap string jsonb :=
  <[path := new_value]> target.

(** ** Exceptions *)

Inductive sql_exception :=
| WalletNotFound
    (* RAISE EXCEPTION 'Wallet not found for user' *)
| InsufficientFunds (category : text) (available : decimal)
    (* RAISE EXCEPTION 'Insufficient funds in % category. Available: %' *)
| CannotCastJsonb (v : jsonb).
    (* cannot cast jsonb null/string/boolean/array/object to type numeric *)

(** ** Tables *)

Section Ledger.

(** [TIMESTAMP WITH TIME ZONE] and its addition of an [interval], which
    depends on the calendar and on the time zone of the session. *)
Context {timestamptz : Type}.
Variable timestamptz_pl_interval : timestamptz -> interval -> timestamptz.

Record wallet := {
  wallet_user_id : uuid;
  total_balance : decimal;
  category_breakdown : gmap string jsonb
}.

Record service_booking := {
  booking_id_col : uuid;
  booking_user_id : uuid;
  booking_service_id : uuid;
  booking_scheduled_at : timestamptz;
  booking_total_price : decimal;
  booking_ndis_covered_amount : decimal;
  booking_gap_payment : decimal;
  booking_notes : text;
  booking_status : text
}.

Record claim := {
  claim_user_id : uuid;
  claim_booking_id : uuid;
  claim_amount : decimal;
  claim_status : text;
  claim_category : text;
  claim_expiry_date : timestamptz
}.

Record database := {
  wallets : list wallet;
  service_bookings : list service_booking;
  claims : list claim
}.

(** What the procedure reads from its surroundings. *)
Record session := {
  now : timestamptz;
  service_bookings_id_default : uuid
}.

(** ** The PL/pgSQL monad *)

Definition plpgsql (A : Type) : Type :=
  database -> (sql_exception + A) * database.

Definition ret {A} (a : A) : plpgsql A := fun db => (inr a, db).

Definition bind {A B} (m : plpgsql A) (k : A -> plpgsql B) : plpgsql B :=
  fun db =>
    match m db with
    | (inl e, db') => (inl e, db')
    | (inr a, db') => k a db'
    end.

Definition raise_exception {A} (e : sql_exception) : plpgsql A :=
  fun db => (inl e, db).

Notation "x <- m ;; k" := (bind m (fun x => k))
  (at level 100, m at next level, right associativity).
Notation "m ;;; k" := (bind m (fun _ => k))
  (at level 100, right associativity).

(** ** Statements *)

(** The first row of [wallets] with [user_id = p_user_id], if there is
    one. *)
Definition wallet_of (db : database) (p_user_id : uuid) : option wallet :=
  List.find (fun w => bool_decide (wallet_user_id w = p_user_id))
            (wallets db).

(** [SELECT * INTO v FROM wallets WHERE user_id = p_user_id]: the row read
    into the record variable; [None] stands for [NOT FOUND]. *)
Definition select_wallet (p_user_id : uuid) : plpgsql (option wallet) :=
  fun db => (inr (wallet_of db p_user_id), db).

(** [(category_breakdown -> key)::DECIMAL]: SQL NULL ([None]) when the object
    has no such field, the number when the field is a number, and the error
    of the cast for any other document (a JSON null included, as on the
    servers of the migration's date). *)
Definition jsonb_field_numeric (breakdown : gmap string jsonb) (key : text)
    : plpgsql (option decimal) :=
  match breakdown !! key with
  | None => ret None
  | Some (JNum d) => ret (Some d)
  | Some v => raise_exception (CannotCastJsonb v)
  end.

(** [COALESCE(v, 0)]. *)
Definition coalesce0 (v : option decimal) : decimal :=
  match v with
  | Some d => d
  | None => 0
  end.

(** [INSERT INTO service_bookings (...) VALUES (...) RETURNING id]. *)
Definition insert_service_booking (row : service_booking) : plpgsql uuid :=
  fun db =>
    (inr (booking_id_col row),
     {| wallets := wallets db;
        service_bookings := service_bookings db ++ [row];
        claims := claims db |}).

(** [UPDATE wallets SET total_balance = total_balance - amount,
    category_breakdown = jsonb_set(category_breakdown, ARRAY[category],
    to_jsonb(balance - amount)) WHERE user_id = p_user_id]. *)
Definition update_wallet_row (p_user_id : uuid) (p_category : text)
    (v_category_balance p_ndis_covered_amount : decimal) (w : wallet)
    : wallet :=
  if bool_decide (wallet_user_id w = p_user_id) then
    {| wallet_user_id := wallet_user_id w;
       total_balance := total_balance w - p_ndis_covered_amount;
       category_breakdown :=
         jsonb_set (category_breakdown w) p_category
                   (to_jsonb (v_category_balance - p_ndis_covered_amount)) |}
  else w.

(** Every row is rewritten or left alone where it stands in the list: the
    list keeps track of which row is which, not of where the server stores
    the new version of a row. *)
Definition update_wallets (p_user_id : uuid) (p_category : text)
    (v_category_balance p_ndis_covered_amount : decimal) : plpgsql unit :=
  fun db =>
    (inr tt,
     {| wallets := List.map (update_wallet_row p_user_id p_category
                               v_category_balance p_ndis_covered_amount)
                            (wallets db);
        service_bookings := service_bookings db;
        claims := claims db |}).

(** [INSERT INTO claims (...) VALUES (...)]. *)
Definition insert_claim (row : claim) : plpgsql unit :=
  fun db =>
    (inr tt,
     {| wallets := wallets db;
        service_bookings := service_bookings db;
        claims := claims db ++ [row] |}).

(** ** The stored procedure *)

(** The test [IF v_category_balance IS NULL OR v_category_balance <
    p_ndis_covered_amount] is the [match] on [v_category_balance] followed by
    [decimal_lt]: a NULL balance takes the [RAISE] branch at once. *)
Definition create_booking_with_wallet_update (ses : session)
    (p_user_id p_service_id : uuid) (p_scheduled_at : timestamptz)
    (p_total_price p_ndis_covered_amount p_gap_payment : decimal)
    (p_notes p_category : text) : plpgsql uuid :=
  v_wallet_record <- select_wallet p_user_id ;;
  match v_wallet_record with
  | None => raise_exception WalletNotFound
  | Some v_wallet_record =>
    v_category_balance <-
      jsonb_field_numeric (category_breakdown v_wallet_record) p_category ;;
    match v_category_balance with
    | None =>
        raise_exception
          (InsufficientFunds p_category (coalesce0 v_category_balance))
    | Some balance =>
      if decimal_lt balance p_ndis_covered_amount then
        raise_exception
          (InsufficientFunds p_category (coalesce0 v_category_balance))
      else
        v_booking_id <-
          insert_service_booking
            {| booking_id_col := service_bookings_id_default ses;
               booking_user_id := p_user_id;
               booking_service_id := p_service_id;
               booking_scheduled_at := p_scheduled_at;
               booking_total_price := p_total_price;
               booking_ndis_covered_amount := p_ndis_covered_amount;
               booking_gap_payment := p_gap_payment;
               booking_notes := p_notes;
               booking_status := "pending" |} ;;
        update_wallets p_user_id p_category balance p_ndis_covered_amount ;;;
        insert_claim
          {| claim_user_id := p_user_id;
             claim_booking_id := v_booking_id;
             claim_amount := p_ndis_covered_amount;
             claim_status := "pending";
             claim_category := p_category;
             claim_expiry_date :=
               timestamptz_pl_interval (now ses) interval_90_days |} ;;;
        ret v_booking_id
    end
  end.

(** The database a successful call leaves behind. *)
Definition booked (ses : session) (p_user_id p_service_id : uuid)
    (p_scheduled_at : timestamptz)
    (p_total_price p_ndis_covered_amount p_gap_payment : decimal)
    (p_notes p_category : text) (balance : decimal) (db : database)
    : database :=
  {| wallets :=
       List.map (update_wallet_row p_user_id p_category balance
                   p_ndis_covered_amount) (wallets db);
     service_bookings :=
       service_bookings db ++
       [ {| booking_id_col := service_bookings_id_default ses;
            booking_user_id := p_user_id;
            booking_service_id := p_service_id;
            booking_scheduled_at := p_scheduled_at;
            booking_total_price := p_total_price;
            booking_ndis_covered_amount := p_ndis_covered_amount;
            booking_gap_payment := p_gap_payment;
            booking_notes := p_notes;
            booking_status := "pending" |} ];
     claims :=
       claims db ++
       [ {| claim_user_id := p_user_id;
            claim_booking_id := service_bookings_id_default ses;
            claim_amount := p_ndis_covered_amount;
            claim_status := "pending";
            claim_category := p_category;
            claim_expiry_date :=
              timestamptz_pl_interval (now ses) interval_90_days |} ] |}.

(** ** The balance invariant of the design document *)

(** One step of the sum of the category balances; the sum is defined when
    every field of the breakdown is a number. *)
Definition add_category_balance (_ : string) (v : jsonb)
    (acc : option decimal) : option decimal :=
  match acc, v with
  | Some a, JNum d => Some (a + d)
  | _, _ => None
  end.

Definition sum_category_balances (breakdown : gmap string jsonb)
    : option decimal :=
  map_fold add_category_balance (Some 0) breakdown.

(** [total_balance] equals the sum of the category balances. *)
Definition wallet_balanced (w : wallet) : Prop :=
  sum_category_balances (category_breakdown w) = Some (total_balance w).

(** ** Claims and the bookings they refer to *)

(** The booking row [bk] is the one the claim row [cl] was filed for: same
    identifier, same user, and the covered amount of the booking is the
    amount of the claim. *)
Definition claim_backed_by (cl : claim) (bk : service_booking) : bool :=
  bool_decide (booking_id_col bk = claim_booking_id cl)
  && bool_decide (booking_user_id bk = claim_user_id cl)
  && bool_decide (booking_ndis_covered_amount bk = claim_amount cl).

(** Every claim row has such a booking row. *)
Definition claims_backed (db : database) : bool :=
  forallb (fun cl => existsb (claim_backed_by cl) (service_bookings db))
          (claims db).

(** ** The identifier of a new booking *)

(** Modelled from the spec: the default of the column [service_bookings.id],
    which the table declaration, in another migration, gives.  The design
    document has the procedure return "the new booking's identifier" and
    gives a booking an identity of its own from its creation on; the default
    is modelled as handing out an identifier that no row of the table
    carries, one past the largest in use. *)
Definition service_bookings_next_id (db : database) : uuid :=
  N.succ (List.fold_right N.max 0%N
            (List.map booking_id_col (service_bookings db))).

(** The session of a call made against [db] while [NOW()] is [now_value]. *)
Definition session_at (now_value : timestamptz) (db : database) : session :=
  {| now := now_value;
     service_bookings_id_default := service_bookings_next_id db |}.

(** ** The transaction wrappers *)

(** Where a backend stands with a transaction block: outside one, where
    every statement is a transaction of its own; inside one, with the working
    copy of the database that holds the writes not yet committed; or inside
    one that an error has aborted, whose writes are lost and which can only
    be ended. *)
Inductive transaction_block :=
| NoBlock
| InBlock (working : database)
| AbortedBlock.

Record backend := {
  committed : database;
  block : transaction_block
}.

Inductive transaction_error :=
| SyntaxError
    (* syntax error at or near ";" *)
| InvalidTransactionTermination
    (* invalid transaction termination *)
| InFailedSqlTransaction.
    (* current transaction is aborted, commands ignored until end of
       transaction block *)

(** The call of a function whose body raises [e].  In an aborted block the
    calling statement is refused before the body runs.  Otherwise the body
    raises: outside a block the transaction of the calling statement is
    rolled back, inside a block the block is aborted.  Nothing is
    committed. *)
Definition call_raising (e : transaction_error) (b : backend)
    : (transaction_error + unit) * backend :=
  match block b with
  | NoBlock => (inl e, b)
  | InBlock _ =>
      (inl e, {| committed := committed b; block := AbortedBlock |})
  | AbortedBlock => (inl InFailedSqlTransaction, b)
  end.

(** The body of [begin_transaction] is [BEGIN BEGIN; END;].  In PL/pgSQL
    [BEGIN] opens a group of statements that [END] closes and is not the SQL
    command; [BEGIN;] does not parse.  The error is raised when the function
    is created, or at its first call where bodies are not checked at
    creation. *)
Definition begin_transaction
    : backend -> (transaction_error + unit) * backend :=
  call_raising SyntaxError.

(** The body of [commit_transaction] is [COMMIT;].  The routine is declared
    with [CREATE FUNCTION]: a function runs inside the statement that calls
    it, and PL/pgSQL refuses to end a transaction there. *)
Definition commit_transaction
    : backend -> (transaction_error + unit) * backend :=
  call_raising InvalidTransactionTermination.

(** The body of [rollback_transaction] is [ROLLBACK;], refused in the same
    way. *)
Definition rollback_transaction
    : backend -> (transaction_error + unit) * backend :=
  call_raising InvalidTransactionTermination.

End Ledger.

(** ** Sample data

    Time stamps of the samples are microseconds since the epoch in a session
    whose time zone is UTC, where a day of an interval is 86400 seconds; the
    samples use no interval with months. *)

Definition utc_pl_interval (t : Z) (i : interval) : Z :=
  (t + (interval_day i * 86400000000 + interval_time i))%Z.

Definition dec (n : Z) : decimal := Q2Qc (inject_Z n).

Definition alice : uuid := 1%N.
Definition bob : uuid := 2%N.
Definition physio : uuid := 77%N.

(** The wallet of the scenario of the design document. *)
Definition sample_wallet : wallet :=
  {| wallet_user_id := alice;
     total_balance := dec 1000;
     category_breakdown :=
       {[ "core" := JNum (dec 500); "capital" := JNum (dec 500) ]} |}.

Definition sample_db : database (timestamptz := Z) :=
  {| wallets := [sample_wallet];
     service_bookings := [];
     claims := [] |}.

Definition sample_session : session (timestamptz := Z) :=
  {| now := 1000000%Z; service_bookings_id_default := 4242%N |}.

Definition later_session : session (timestamptz := Z) :=
  {| now := 2000000%Z; service_bookings_id_default := 4243%N |}.

(** A category name with characters that a textual key path would have to
    escape; the last one is the double quote. *)
Definition odd_category : text :=
  String.append "core.{sup\port},[0]'x y"
    (String (Ascii.ascii_of_nat 34) EmptyString).

Definition odd_wallet : wallet :=
  {| wallet_user_id := alice;
     total_balance := dec 40;
     category_breakdown :=
       {[ odd_category := JNum (dec 30); "core" := JNum (dec 10) ]} |}.

(** A wallet whose category balance is negative. *)
Definition overdrawn_wallet : wallet :=
  {| wallet_user_id := alice;
     total_balance := dec (-5);
     category_breakdown := {[ "core" := JNum (dec (-5)) ]} |}.

Definition odd_db : database (timestamptz := Z) :=
  {| wallets := [odd_wallet]; service_bookings := []; claims := [] |}.

Definition overdrawn_db : database (timestamptz := Z) :=
  {| wallets := [overdrawn_wallet]; service_bookings := []; claims := [] |}.

(** The scenario of the design document: 200 booked against "core". *)
Definition sample_booking : service_booking (timestamptz := Z) :=
  {| booking_id_col := 4242%N;
     booking_user_id := alice;
     booking_service_id := physio;
     booking_scheduled_at := 5000000%Z;
     booking_total_price := dec 250;
     booking_ndis_covered_amount := dec 200;
     booking_gap_payment := dec 50;
     booking_notes := "first visit";
     booking_status := "pending" |}.

Definition sample_claim : claim (timestamptz := Z) :=
  {| claim_user_id := alice;
     claim_booking_id := 4242%N;
     claim_amount := dec 200;
     claim_status := "pending";
     claim_category := "core";
     claim_expiry_date := (1000000 + 90 * 86400000000)%Z |}.

Definition sample_db_booked : database (timestamptz := Z) :=
  {| wallets :=
       [ {| wallet_user_id := alice;
            total_balance := dec 800;
            category_breakdown :=
              {[ "core" := JNum (dec 300); "capital" := JNum (dec 500) ]}
         |} ];
     service_bookings := [sample_booking];
     claims := [sample_claim] |}.

(** 5 booked against the category with the odd name. *)
Definition odd_db_booked : database (timestamptz := Z) :=
  {| wallets :=
       [ {| wallet_user_id := alice;
            total_balance := dec 35;
            category_breakdown :=
              {[ odd_category := JNum (dec 25); "core" := JNum (dec 10) ]}
         |} ];
     service_bookings :=
       [ {| booking_id_col := 4242%N;
            booking_user_id := alice;
            booking_service_id := physio;
            booking_scheduled_at := 5000000%Z;
            booking_total_price := dec 5;
            booking_ndis_covered_amount := dec 5;
            booking_gap_payment := dec 0;
            booking_notes := "walk-in";
            booking_status := "pending" |} ];
     claims :=
       [ {| claim_user_id := alice;
            claim_booking_id := 4242%N;
            claim_amount := dec 5;
            claim_status := "pending";
            claim_category := odd_category;
            claim_expiry_date := (1000000 + 90 * 86400000000)%Z |} ] |}.

(** The call of the scenario, with the covered amount and the category left
    open. *)
Definition sample_call (amount : decimal) (category : text)
    : plpgsql (timestamptz := Z) N :=
  create_booking_with_wallet_update utc_pl_interval sample_session alice
    physio 5000000%Z (dec 250) amount (dec 50) "first visit" category.

(** A backend in a transaction block whose working copy holds the booking of
    the scenario, not yet committed. *)
Definition sample_backend : backend (timestamptz := Z) :=
  {| committed := sample_db; block := InBlock sample_db_booked |}.

(** A backend outside any transaction block. *)
Definition idle_backend : backend (timestamptz := Z) :=
  {| committed := sample_db; block := NoBlock |}.

(** A wallet whose "core" field is a string, not a number. *)
Definition malformed_wallet : wallet :=
  {| wallet_user_id := alice;
     total_balance := dec 500;
     category_breakdown := {[ "core" := JStr "500" ]} |}.

Definition malformed_db : database (timestamptz := Z) :=
  {| wallets := [malformed_wallet]; service_bookings := []; claims := [] |}.

(** A wallet whose total lies below what its "core" category holds. *)
Definition thin_wallet : wallet :=
  {| wallet_user_id := alice;
     total_balance := dec 100;
     category_breakdown := {[ "core" := JNum (dec 500) ]} |}.

Definition thin_db : database (timestamptz := Z) :=
  {| wallets := [thin_wallet]; service_bookings := []; claims := [] |}.

(** Two wallet rows for the same user, and one for another user. *)
Definition second_wallet : wallet :=
  {| wallet_user_id := alice;
     total_balance := dec 50;
     category_breakdown := {[ "core" := JNum (dec 50) ]} |}.

Definition bob_wallet : wallet :=
  {| wallet_user_id := bob;
     total_balance := dec 70;
     category_breakdown := {[ "core" := JNum (dec 70) ]} |}.

Definition crowded_db : database (timestamptz := Z) :=
  {| wallets := [sample_wallet; bob_wallet; second_wallet];
     service_bookings := [];
     claims := [] |}.

(** * The housing detail screen

    The parts of [app/(tabs)/housing/[id].tsx] that compute: the text of the
    SDA badge, and the screen state that [loadListing] drives and the render
    function reads.

    A JavaScript string is its sequence of UTF-16 code units, a list of
    numbers.  [String.prototype.toUpperCase] is the engine's Unicode case
    mapping; it is a parameter of the badge text. *)

Module JsString.

(** The code units of an ASCII literal. *)
Definition of_ascii (s : string) : list N :=
  List.map Ascii.N_of_ascii (String.list_ascii_of_string s).

Definition underscore : N := 95%N.
Definition space : N := 32%N.

(** [s.split(sep)] for a separator of one code unit: the pieces between the
    occurrences of the separator; the empty string gives one empty piece. *)
Fixpoint split (sep : N) (s : list N) : list (list N) :=
  match s with
  | nil => nil :: nil
  | c :: rest =>
      if bool_decide (c = sep) then nil :: split sep rest
      else
        match split sep rest with
        | piece :: pieces => (c :: piece) :: pieces
        | nil => (c :: nil) :: nil
        end
  end.

(** [s.charAt(i)]: the code unit at [i] as a string, the empty string when
    [i] is out of range. *)
Definition charAt (s : list N) (i : nat) : list N :=
  match drop i s with
  | c :: _ => c :: nil
  | nil => nil
  end.

(** [s.slice(start)] for a start that is not negative. *)
Definition slice (s : list N) (start : nat) : list N := drop start s.

(** [parts.join(sep)]. *)
Fixpoint join (sep : list N) (parts : list (list N)) : list N :=
  match parts with
  | nil => nil
  | part :: nil => part
  | part :: rest => part ++ sep ++ join sep rest
  end.

(** Upper case of an ASCII code unit: the letters a to z move to A to Z. *)
Definition ascii_upper (c : N) : N :=
  if bool_decide (97 <= c <= 122)%N then (c - 32)%N else c.

(** A case mapping that is right on ASCII text, for the samples. *)
Definition ascii_toUpperCase (s : list N) : list N :=
  List.map ascii_upper s.

End JsString.

Section SdaBadge.

Variable toUpperCase : list N -> list N.

(** [word => word.charAt(0).toUpperCase() + word.slice(1)]. *)
Definition capitalize_word (word : list N) : list N :=
  toUpperCase (JsString.charAt word 0) ++ JsString.slice word 1.

(** [listing.sda_category.split('_').map(...).join(' ')]. *)
Definition sda_badge_text (sda_category : list N) : list N :=
  JsString.join (JsString.space :: nil)
    (List.map capitalize_word
       (JsString.split JsString.underscore sda_category)).

(** The same text written as one pass over the code units, for text on
    which [toUpperCase] maps one unit to one unit: [at_word_start] tells
    whether the unit at hand opens a word. *)
Fixpoint badge_pass (upper : N -> N) (at_word_start : bool)
    (s : list N) : list N :=
  match s with
  | nil => nil
  | c :: rest =>
      if bool_decide (c = JsString.underscore)
      then JsString.space :: badge_pass upper true rest
      else (if at_word_start then upper c else c)
             :: badge_pass upper false rest
  end.

End SdaBadge.

Section ScreenState.

(** The row type of [housing_listings] with its provider; the screen state
    only stores it. *)
Context {HousingListing : Type}.

(** The [useState] cells that [loadListing] writes and the render function
    reads.  [error] and [listing] are [null] at first. *)
Record screen_state := {
  loading : bool;
  error : option (list N);
  listing : option HousingListing
}.

Definition initial_state : screen_state :=
  {| loading := true; error := None; listing := None |}.

Definition setLoading (v : bool) (st : screen_state) : screen_state :=
  {| loading := v; error := error st; listing := listing st |}.

Definition setError (v : option (list N)) (st : screen_state)
    : screen_state :=
  {| loading := loading st; error := v; listing := listing st |}.

Definition setListing (v : option HousingListing) (st : screen_state)
    : screen_state :=
  {| loading := loading st; error := error st; listing := v |}.

(** A value that reaches the [catch] clause: an instance of [Error] with its
    message, or anything else. *)
Inductive thrown :=
| ErrorInstance (message : list N)
| OtherValue.

(** How the awaited query ends: it resolves to [{ data, error }], or the
    promise is rejected. *)
Inductive query_outcome :=
| Resolved (data : option HousingListing) (fetchError : option thrown)
| Rejected (e : thrown).

(** [e instanceof Error ? e.message : 'Failed to load housing listing']. *)
Definition catch_text (e : thrown) : list N :=
  match e with
  | ErrorInstance message => message
  | OtherValue => JsString.of_ascii "Failed to load housing listing"
  end.

(** [loadListing], from the call to the end of its [finally] clause, given
    how the query ended. *)
Definition loadListing (q : query_outcome) (st : screen_state)
    : screen_state :=
  let st := setLoading true st in
  let st :=
    match q with
    | Resolved data None => setListing data st
    | Resolved _ (Some e) => setError (Some (catch_text e)) st
    | Rejected e => setError (Some (catch_text e)) st
    end in
  setLoading false st.

(** Loads that follow one another on the same screen. *)
Definition loadListings (qs : list query_outcome) (st : screen_state)
    : screen_state :=
  List.fold_left (fun st q => loadListing q st) qs st.

(** Truthiness of a [string | null]: [null] and the empty string are
    falsy. *)
Definition truthy (v : option (list N)) : bool :=
  match v with
  | Some (_ :: _) => true
  | _ => false
  end.

(** What the component returns. *)
Inductive view :=
| LoadingView
| ErrorView (text : list N)
| DetailView (shown : HousingListing).

(** [error || 'Listing not found']. *)
Definition error_text (v : option (list N)) : list N :=
  match v with
  | Some (c :: rest) => c :: rest
  | _ => JsString.of_ascii "Listing not found"
  end.

(** [if (loading) ...; if (error || !listing) ...; return <detail>]: the
    second test is taken apart into the case of no listing and the case of
    a truthy error, so that the last branch has its listing at hand. *)
Definition render (st : screen_state) : view :=
  if loading st then LoadingView
  else
    match listing st with
    | None => ErrorView (error_text (error st))
    | Some shown =>
        if truthy (error st) then ErrorView (error_text (error st))
        else DetailView shown
    end.

End ScreenState.

(** Samples for the screen: a listing is stood for by a number. *)
Definition accessible_code : list N := JsString.of_ascii "fully_accessible".

Definition failed_query : query_outcome (HousingListing := nat) :=
  Rejected OtherValue.

Definition fresh_screen : screen_state (HousingListing := nat) :=
  initial_state.

Section LedgerFacts.

Context {timestamptz : Type}.
Variable timestamptz_pl_interval : timestamptz -> interval -> timestamptz.

Implicit Types (db : database (timestamptz := timestamptz)).
Implicit Types (ses : session (timestamptz := timestamptz)).
Implicit Types (u s : uuid) (t : timestamptz) (tp amt gp b : decimal).
Implicit Types (notes cat : text) (w : wallet).

(** ** Auxiliary facts *)

Lemma decimal_lt_ge (a b : decimal) : b <= a -> decimal_lt a b = false.
Proof.
  intros H. unfold decimal_lt.
  destruct (a ?= b) eqn:E; try reflexivity.
  exfalso. exact (Qcle_not_lt _ _ H (proj2 (Qclt_alt a b) E)).
Qed.

Lemma decimal_lt_lt (a b : decimal) : a < b -> decimal_lt a b = true.
Proof.
  intros H. unfold decimal_lt.
  now rewrite (proj1 (Qclt_alt a b) H).
Qed.

Lemma decimal_lt_false_inv (a b : decimal) : decimal_lt a b = false -> b <= a.
Proof.
  unfold decimal_lt. intros H. apply Qcnot_lt_le. intros L.
  rewrite (proj1 (Qclt_alt a b) L) in H. discriminate.
Qed.

(** [UPDATE] leaves the key column alone. *)
Lemma update_wallet_row_user_id (u : uuid) (cat : text) (b amt : decimal)
    (w : wallet) :
  wallet_user_id (update_wallet_row u cat b amt w) = wallet_user_id w.
Proof. unfold update_wallet_row. now case_bool_decide. Qed.

(** The first matching row of the updated table is the update of the first
    matching row. *)
Lemma find_update_wallets (u : uuid) (cat : text) (b amt : decimal)
    (ws : list wallet) :
  List.find (fun w => bool_decide (wallet_user_id w = u))
            (List.map (update_wallet_row u cat b amt) ws)
  = option_map (update_wallet_row u cat b amt)
      (List.find (fun w => bool_decide (wallet_user_id w = u)) ws).
Proof.
  induction ws as [|w ws IH]; [reflexivity|].
  cbn [List.map List.find]. rewrite update_wallet_row_user_id.
  now case_bool_decide.
Qed.

(** Rows of other users are skipped by the [WHERE] clause. *)
Lemma find_update_wallets_other (u u' : uuid) (cat : text) (b amt : decimal)
    (ws : list wallet) :
  u' <> u ->
  List.find (fun w => bool_decide (wallet_user_id w = u'))
            (List.map (update_wallet_row u cat b amt) ws)
  = List.find (fun w => bool_decide (wallet_user_id w = u')) ws.
Proof.
  intros Hne. induction ws as [|w ws IH]; [reflexivity|].
  cbn [List.map List.find]. rewrite update_wallet_row_user_id.
  case_bool_decide as E; [|exact IH].
  unfold update_wallet_row. rewrite bool_decide_eq_false_2 by congruence.
  reflexivity.
Qed.

(** The one path on which the procedure returns. *)
Lemma create_booking_returns ses u s t tp amt gp notes cat db w b :
  wallet_of db u = Some w ->
  category_breakdown w !! cat = Some (JNum b) ->
  amt <= b ->
  create_booking_with_wallet_update timestamptz_pl_interval ses u s t tp amt gp
    notes cat db
  = (inr (service_bookings_id_default ses),
     booked timestamptz_pl_interval ses u s t tp amt gp notes cat b db).
Proof.
  intros Hw Hb Hle.
  unfold create_booking_with_wallet_update, bind, select_wallet.
  rewrite Hw.
  unfold jsonb_field_numeric. rewrite Hb. unfold ret.
  rewrite (decimal_lt_ge _ _ Hle). reflexivity.
Qed.

(** Conversely, a call that returns went through that path. *)
Lemma create_booking_returns_inv ses u s t tp amt gp notes cat db id db' :
  create_booking_with_wallet_update timestamptz_pl_interval ses u s t tp amt gp
    notes cat db
  = (inr id, db') ->
  exists w b,
    wallet_of db u = Some w /\
    category_breakdown w !! cat = Some (JNum b) /\
    amt <= b /\
    id = service_bookings_id_default ses /\
    db' = booked timestamptz_pl_interval ses u s t tp amt gp notes cat b db.
Proof.
  unfold create_booking_with_wallet_update, bind, select_wallet.
  destruct (wallet_of db u) as [w|] eqn:Hw;
    [|unfold raise_exception; discriminate].
  unfold jsonb_field_numeric.
  destruct (category_breakdown w !! cat) as [v|] eqn:Hv;
    [|unfold ret, raise_exception; discriminate].
  destruct v; unfold ret, raise_exception; try discriminate.
  destruct (decimal_lt d amt) eqn:Hlt; [discriminate|].
  intros H. injection H as <- <-.
  exists w, d. split_and!; try reflexivity; try assumption.
  now apply decimal_lt_false_inv.
Qed.

(** The wallet row of the user after a successful call. *)
Lemma wallet_of_booked ses u s t tp amt gp notes cat b db w :
  wallet_of db u = Some w ->
  wallet_of (booked timestamptz_pl_interval ses u s t tp amt gp notes cat b db)
    u
  = Some {| wallet_user_id := wallet_user_id w;
            total_balance := total_balance w - amt;
            category_breakdown :=
              jsonb_set (category_breakdown w) cat (to_jsonb (b - amt)) |}.
Proof.
  unfold wallet_of. cbn [wallets booked]. intros Hw.
  rewrite find_update_wallets, Hw. cbn [option_map].
  apply List.find_some in Hw as [_ Hu].
  unfold update_wallet_row. now rewrite Hu.
Qed.

Lemma wallet_of_booked_other ses u s t tp amt gp notes cat b db u' :
  u' <> u ->
  wallet_of (booked timestamptz_pl_interval ses u s t tp amt gp notes cat b db)
    u'
  = wallet_of db u'.
Proof.
  intros Hne. unfold wallet_of. cbn [wallets booked].
  now apply find_update_wallets_other.
Qed.

(** Adding up the balances does not depend on the order of the fields. *)
Lemma add_category_balance_comm (j1 j2 : string) (z1 z2 : jsonb)
    (y : option decimal) :
  add_category_balance j1 z1 (add_category_balance j2 z2 y)
  = add_category_balance j2 z2 (add_category_balance j1 z1 y).
Proof.
  destruct y as [a|], z1, z2; cbn; try reflexivity.
  apply (f_equal Some). ring.
Qed.

(** Replacing one balance moves the sum by the difference. *)
Lemma sum_category_balances_set (m : gmap string jsonb) (k : string)
    (old new total : decimal) :
  m !! k = Some (JNum old) ->
  sum_category_balances m = Some total ->
  sum_category_balances (jsonb_set m k (to_jsonb new))
  = Some (total - old + new).
Proof.
  unfold sum_category_balances, jsonb_set, to_jsonb. intros Hk Hsum.
  rewrite (map_fold_delete_L _ _ k (JNum old) m) in Hsum;
    [|intros; apply add_category_balance_comm|exact Hk].
  rewrite <- (insert_delete_eq m).
  rewrite map_fold_insert_L;
    [|intros; apply add_category_balance_comm|apply lookup_delete_eq].
  destruct (map_fold add_category_balance (Some 0) (delete k m)) as [rest|];
    [|discriminate].
  cbn in *. injection Hsum as <-. apply (f_equal Some). ring.
Qed.

(** ** The properties of the design document *)

(** C1: when the requested category holds a balance [b] with
    [b >= ndisCoveredAmount], the call returns; in the wallet row of the user
    [total_balance] has gone down by [ndisCoveredAmount], the requested
    category holds [b - ndisCoveredAmount], every other category holds what
    it held, and the wallet rows of other users are as before. *)
Theorem sufficient_balance_debits_category
    ses u s t tp amt gp notes cat db w b :
  wallet_of db u = Some w ->
  category_breakdown w !! cat = Some (JNum b) ->
  amt <= b ->
  exists id db' w',
    create_booking_with_wallet_update timestamptz_pl_interval ses u s t tp
      amt gp notes cat db = (inr id, db') /\
    wallet_of db' u = Some w' /\
    total_balance w' = total_balance w - amt /\
    category_breakdown w' !! cat = Some (JNum (b - amt)) /\
    (forall k, k <> cat ->
       category_breakdown w' !! k = category_breakdown w !! k) /\
    (forall u', u' <> u -> wallet_of db' u' = wallet_of db u').
Proof.
  intros Hw Hb Hle.
  eexists _, _, _.
  split; [exact (create_booking_returns _ _ _ _ _ _ _ _ _ _ _ _ Hw Hb Hle)|].
  split; [exact (wallet_of_booked _ _ _ _ _ _ _ _ _ _ _ _ Hw)|].
  cbn [total_balance category_breakdown]. unfold jsonb_set, to_jsonb.
  split_and!.
  - reflexivity.
  - apply lookup_insert_eq.
  - intros k Hk. now apply lookup_insert_ne.
  - intros u' Hu'. now apply wallet_of_booked_other.
Qed.

(** C2: when the requested category holds a balance below
    [ndisCoveredAmount], or is missing from the breakdown, the call raises
    [InsufficientFunds] with the category name and the available balance
    (zero for a missing category), and the database at the raise is the
    database of the call: wallets, bookings and claims are untouched. *)
Theorem insufficient_funds_raises_and_writes_nothing
    ses u s t tp amt gp notes cat db w :
  wallet_of db u = Some w ->
  category_breakdown w !! cat = None \/
  (exists b, category_breakdown w !! cat = Some (JNum b) /\ b < amt) ->
  exists available,
    create_booking_with_wallet_update timestamptz_pl_interval ses u s t tp
      amt gp notes cat db = (inl (InsufficientFunds cat available), db) /\
    (category_breakdown w !! cat = None -> available = 0) /\
    (forall b, category_breakdown w !! cat = Some (JNum b) -> available = b).
Proof.
  intros Hw Hcase.
  unfold create_booking_with_wallet_update, bind, select_wallet.
  rewrite Hw. unfold jsonb_field_numeric.
  destruct Hcase as [Hnone | (b & Hb & Hlt)].
  - rewrite Hnone. exists 0. split_and!; [reflexivity|reflexivity|].
    intros b Hb. discriminate.
  - rewrite Hb. unfold ret. rewrite (decimal_lt_lt _ _ Hlt).
    exists b. split_and!; [reflexivity|discriminate|].
    intros b' Hb'. congruence.
Qed.

(** C3: for a user without a wallet row the call raises [WalletNotFound],
    and the database at the raise is the database of the call: no booking
    row and no claim row has been written. *)
Theorem missing_wallet_raises_and_writes_nothing
    ses u s t tp amt gp notes cat db :
  wallet_of db u = None ->
  create_booking_with_wallet_update timestamptz_pl_interval ses u s t tp
    amt gp notes cat db = (inl WalletNotFound, db).
Proof.
  intros Hw.
  unfold create_booking_with_wallet_update, bind, select_wallet.
  now rewrite Hw.
Qed.

(** C4: a call that returns has appended exactly one booking row, of status
    pending and carrying the arguments, and exactly one claim row, which
    refers to that booking, has amount [ndisCoveredAmount], status pending,
    the requested category and expiry [NOW() + 90 days]; the value returned
    is the identifier of the new booking row. *)
Theorem success_inserts_one_booking_and_one_claim
    ses u s t tp amt gp notes cat db id db' :
  create_booking_with_wallet_update timestamptz_pl_interval ses u s t tp
    amt gp notes cat db = (inr id, db') ->
  exists bk cl,
    service_bookings db' = service_bookings db ++ [bk] /\
    claims db' = claims db ++ [cl] /\
    id = booking_id_col bk /\
    booking_status bk = "pending" /\
    booking_user_id bk = u /\
    booking_service_id bk = s /\
    booking_scheduled_at bk = t /\
    booking_total_price bk = tp /\
    booking_ndis_covered_amount bk = amt /\
    booking_gap_payment bk = gp /\
    booking_notes bk = notes /\
    claim_booking_id cl = booking_id_col bk /\
    claim_user_id cl = u /\
    claim_amount cl = amt /\
    claim_status cl = "pending" /\
    claim_category cl = cat /\
    claim_expiry_date cl
    = timestamptz_pl_interval (now ses) interval_90_days.
Proof.
  intros Hcall.
  apply create_booking_returns_inv in Hcall
    as (w & b & _ & _ & _ & -> & ->).
  eexists _, _. cbn [service_bookings claims booked].
  split_and!; reflexivity.
Qed.

(** C5: if [total_balance] equals the sum of the category balances in the
    wallet row of the user, it still does in that row after a call that
    returns: the total and the one category go down by the same amount. *)
Theorem success_preserves_wallet_balanced
    ses u s t tp amt gp notes cat db w id db' :
  wallet_of db u = Some w ->
  wallet_balanced w ->
  create_booking_with_wallet_update timestamptz_pl_interval ses u s t tp
    amt gp notes cat db = (inr id, db') ->
  exists w' b,
    wallet_of db' u = Some w' /\
    wallet_balanced w' /\
    category_breakdown w !! cat = Some (JNum b) /\
    total_balance w' = total_balance w - amt /\
    category_breakdown w' !! cat = Some (JNum (b - amt)).
Proof.
  intros Hw Hbal Hcall.
  apply create_booking_returns_inv in Hcall
    as (w0 & b & Hw0 & Hb & _ & _ & ->).
  assert (w0 = w) as -> by congruence.
  eexists _, b. split; [exact (wallet_of_booked _ _ _ _ _ _ _ _ _ _ _ _ Hw)|].
  unfold wallet_balanced in *. cbn [total_balance category_breakdown].
  split_and!; try reflexivity; try assumption.
  - rewrite (sum_category_balances_set _ _ _ _ _ Hb Hbal).
    apply (f_equal Some). ring.
  - apply lookup_insert_eq.
Qed.

(** C6: for every category name, whatever characters it contains, the field
    the check reads and the field the update writes are the same field: after
    a call that returns, the breakdown is the old one with exactly the field
    named by the category replaced by the checked balance minus
    [ndisCoveredAmount]; no field is added and no other field changes. *)
Theorem check_and_update_address_same_key
    ses u s t tp amt gp notes cat db id db' :
  create_booking_with_wallet_update timestamptz_pl_interval ses u s t tp
    amt gp notes cat db = (inr id, db') ->
  exists w w' b,
    wallet_of db u = Some w /\
    wallet_of db' u = Some w' /\
    category_breakdown w !! cat = Some (JNum b) /\
    category_breakdown w' !! cat = Some (JNum (b - amt)) /\
    (forall k, k <> cat ->
       category_breakdown w' !! k = category_breakdown w !! k) /\
    dom (category_breakdown w') = dom (category_breakdown w).
Proof.
  intros Hcall.
  apply create_booking_returns_inv in Hcall
    as (w & b & Hw & Hb & _ & _ & ->).
  eexists w, _, b. split; [exact Hw|].
  split; [exact (wallet_of_booked _ _ _ _ _ _ _ _ _ _ _ _ Hw)|].
  cbn [category_breakdown]. unfold jsonb_set, to_jsonb.
  split_and!.
  - exact Hb.
  - apply lookup_insert_eq.
  - intros k Hk. now apply lookup_insert_ne.
  - apply dom_insert_lookup_L. now rewrite Hb.
Qed.

(** The identifier the column default hands out lies above the identifier
    of every booking row in the table. *)
Lemma fold_max_ge (l : list N) (x : N) :
  List.In x l -> (x <= List.fold_right N.max 0 l)%N.
Proof.
  induction l as [|y l IH]; cbn [List.In List.fold_right]; [tauto|].
  intros [-> | Hin]; [lia|]. specialize (IH Hin). lia.
Qed.

Lemma service_bookings_next_id_fresh db
    (bk : service_booking (timestamptz := timestamptz)) :
  List.In bk (service_bookings db) ->
  (booking_id_col bk < service_bookings_next_id db)%N.
Proof.
  intros Hin. unfold service_bookings_next_id.
  apply N.lt_succ_r, fold_max_ge, List.in_map, Hin.
Qed.

(** C7: the procedure is not idempotent.  When the category balance covers
    the amount twice, two calls in a row with the same arguments, each in the
    session the server makes up for it, both return; the tables hold two more
    booking rows and two more claim rows, the wallet row has lost twice the
    amount, and nothing in the first call's rows stops the second call.  The
    two calls return different identifiers, which no earlier booking
    carries, so the two booking rows differ from each other, and the two
    claim rows, which refer to them, differ as well. *)
Theorem two_identical_calls_book_twice
    (now1 now2 : timestamptz) u s t tp amt gp notes cat db w b :
  wallet_of db u = Some w ->
  category_breakdown w !! cat = Some (JNum b) ->
  amt <= b ->
  amt <= b - amt ->
  exists id1 db1 id2 db2 w2 bk1 bk2 cl1 cl2,
    create_booking_with_wallet_update timestamptz_pl_interval
      (session_at now1 db) u s t tp amt gp notes cat db = (inr id1, db1) /\
    create_booking_with_wallet_update timestamptz_pl_interval
      (session_at now2 db1) u s t tp amt gp notes cat db1
    = (inr id2, db2) /\
    wallet_of db2 u = Some w2 /\
    total_balance w2 = total_balance w - (amt + amt) /\
    category_breakdown w2 !! cat = Some (JNum (b - (amt + amt))) /\
    service_bookings db2 = service_bookings db ++ [bk1; bk2] /\
    claims db2 = claims db ++ [cl1; cl2] /\
    booking_id_col bk1 = id1 /\ booking_id_col bk2 = id2 /\
    claim_booking_id cl1 = id1 /\ claim_booking_id cl2 = id2 /\
    claim_amount cl1 = amt /\ claim_amount cl2 = amt /\
    id1 <> id2 /\ bk1 <> bk2 /\ cl1 <> cl2 /\
    (forall bk, List.In bk (service_bookings db) ->
                booking_id_col bk <> id1 /\ booking_id_col bk <> id2).
Proof.
  intros Hw Hb Hle1 Hle2.
  pose proof (create_booking_returns (session_at now1 db) u s t tp amt gp
                notes cat db w b Hw Hb Hle1) as Hcall1.
  pose proof (wallet_of_booked (session_at now1 db) u s t tp amt gp notes
                cat b db w Hw) as Hw1.
  set (db1 := booked timestamptz_pl_interval (session_at now1 db) u s t tp
                amt gp notes cat b db) in *.
  set (w1 := {| wallet_user_id := wallet_user_id w;
                total_balance := total_balance w - amt;
                category_breakdown :=
                  jsonb_set (category_breakdown w) cat (to_jsonb (b - amt))
             |}) in *.
  assert (category_breakdown w1 !! cat = Some (JNum (b - amt))) as Hb1
    by apply lookup_insert_eq.
  pose proof (create_booking_returns (session_at now2 db1) u s t tp amt gp
                notes cat db1 w1 (b - amt) Hw1 Hb1 Hle2) as Hcall2.
  pose proof (wallet_of_booked (session_at now2 db1) u s t tp amt gp notes
                cat (b - amt) db1 w1 Hw1) as Hw2.
  assert (forall bk, List.In bk (service_bookings db) ->
                     List.In bk (service_bookings db1)) as Hgrow.
  { intros bk Hin. subst db1. cbn [service_bookings booked].
    apply List.in_or_app. now left. }
  assert (service_bookings_next_id db < service_bookings_next_id db1)%N
    as Hfresh.
  { apply (service_bookings_next_id_fresh db1
             {| booking_id_col := service_bookings_next_id db;
                booking_user_id := u;
                booking_service_id := s;
                booking_scheduled_at := t;
                booking_total_price := tp;
                booking_ndis_covered_amount := amt;
                booking_gap_payment := gp;
                booking_notes := notes;
                booking_status := "pending" |}).
    subst db1. cbn [service_bookings booked session_at
                    service_bookings_id_default].
    apply List.in_or_app. right. now left. }
  eexists _, db1, _, _, _, _, _, _, _.
  split; [exact Hcall1|]. split; [exact Hcall2|]. split; [exact Hw2|].
  cbn [total_balance category_breakdown service_bookings claims booked
       booking_id_col claim_booking_id claim_amount db1 w1].
  unfold jsonb_set, to_jsonb.
  split; [ring|].
  split; [rewrite lookup_insert_eq; do 2 f_equal; ring|].
  split; [rewrite <- app_assoc; reflexivity|].
  split; [rewrite <- app_assoc; reflexivity|].
  cbn [booking_id_col claim_booking_id claim_amount session_at
       service_bookings_id_default].
  do 6 (split; [reflexivity|]).
  assert (service_bookings_next_id db <> service_bookings_next_id db1)
    as Hid by lia.
  split; [exact Hid|].
  split; [intros Heq; exact (Hid (f_equal booking_id_col Heq))|].
  split; [intros Heq; exact (Hid (f_equal claim_booking_id Heq))|].
  intros bk Hin.
  pose proof (service_bookings_next_id_fresh db bk Hin).
  pose proof (service_bookings_next_id_fresh db1 bk (Hgrow bk Hin)).
  split; lia.
Qed.

(** C8: none of the three wrappers does what its comment says.  Whatever
    state the backend is in, a call of [begin_transaction],
    [commit_transaction] or [rollback_transaction] ends with an error and
    never with success: the committed database is what it was, so pending
    writes are not made final, no transaction block is opened, and an open
    block is left aborted.  The error is the syntax error of the body for
    [begin_transaction] and the refusal of transaction control inside a
    function for the other two, also when a transaction is active; outside a
    block the calls are errors as well, not calls without effect. *)
Theorem transaction_wrappers_always_raise
    (b : backend (timestamptz := timestamptz)) :
  let calls := [begin_transaction b; commit_transaction b;
                rollback_transaction b]%list in
  Forall (fun r => (exists e, fst r = inl e) /\
                   committed (snd r) = committed b /\
                   (forall working, block (snd r) <> InBlock working) /\
                   (forall working, block b = InBlock working ->
                                    block (snd r) = AbortedBlock))
         calls /\
  (block b <> AbortedBlock ->
   fst (begin_transaction b) = inl SyntaxError /\
   fst (commit_transaction b) = inl InvalidTransactionTermination /\
   fst (rollback_transaction b) = inl InvalidTransactionTermination).
Proof.
  unfold begin_transaction, commit_transaction, rollback_transaction,
    call_raising.
  destruct b as [db [|working|]]; cbn.
  - split; [|now intros _].
    repeat constructor; eauto; intros; discriminate.
  - split; [|now intros _].
    repeat constructor; eauto; intros; discriminate.
  - split; [|now intros []].
    repeat constructor; eauto; intros; discriminate.
Qed.

(** C9, as the code has it: the sign of [ndisCoveredAmount] is not looked
    at.  For an amount that is zero or negative and not above the category
    balance, the call returns, [total_balance] and the category balance go up
    by the absolute value of the amount (stay equal for zero), and the claim
    row carries the non-positive amount. *)
Theorem nonpositive_amount_credits_wallet
    ses u s t tp amt gp notes cat db w b :
  wallet_of db u = Some w ->
  category_breakdown w !! cat = Some (JNum b) ->
  amt <= 0 ->
  amt <= b ->
  exists id db' w' cl,
    create_booking_with_wallet_update timestamptz_pl_interval ses u s t tp
      amt gp notes cat db = (inr id, db') /\
    wallet_of db' u = Some w' /\
    total_balance w' = total_balance w + Qcabs amt /\
    category_breakdown w' !! cat = Some (JNum (b + Qcabs amt)) /\
    total_balance w <= total_balance w' /\
    b <= b + Qcabs amt /\
    claims db' = claims db ++ [cl] /\
    claim_amount cl = amt /\
    claim_amount cl <= 0.
Proof.
  intros Hw Hb Hneg Hle.
  eexists _, _, _, _.
  split; [exact (create_booking_returns _ _ _ _ _ _ _ _ _ _ _ _ Hw Hb Hle)|].
  split; [exact (wallet_of_booked _ _ _ _ _ _ _ _ _ _ _ _ Hw)|].
  cbn [total_balance category_breakdown claims booked claim_amount].
  unfold jsonb_set, to_jsonb. rewrite (Qcabs_neg _ Hneg).
  assert (forall x : Qc, x <= x + - amt) as Hup.
  { intros x. apply (proj2 (Qcle_minus_iff x (x + - amt))).
    replace (x + - amt + - x) with (0 + - amt) by ring.
    exact (proj1 (Qcle_minus_iff amt 0) Hneg). }
  split; [ring|].
  split; [rewrite lookup_insert_eq; do 2 f_equal; ring|].
  split; [replace (total_balance w - amt) with (total_balance w + - amt)
            by ring; apply Hup|].
  split; [apply Hup|].
  split; [reflexivity|].
  cbn [claim_amount]. split; [reflexivity|exact Hneg].
Qed.

(** C10: the debit is a function of [ndisCoveredAmount] alone.  Whatever
    [totalPrice] and [gapPayment] are, and whether or not they add up with
    the covered amount, the call returns under the same condition, the wallet
    rows and the claim rows it leaves are the same, the wallet row has lost
    exactly [ndisCoveredAmount] in total and in the category, and the two
    values are found on the booking row and nowhere else. *)
Theorem debit_depends_only_on_covered_amount
    ses u s t tp gp tp' gp' amt notes cat db w b :
  wallet_of db u = Some w ->
  category_breakdown w !! cat = Some (JNum b) ->
  amt <= b ->
  exists id db1 db2 w' bk bk',
    create_booking_with_wallet_update timestamptz_pl_interval ses u s t tp
      amt gp notes cat db = (inr id, db1) /\
    create_booking_with_wallet_update timestamptz_pl_interval ses u s t tp'
      amt gp' notes cat db = (inr id, db2) /\
    wallets db1 = wallets db2 /\
    claims db1 = claims db2 /\
    wallet_of db1 u = Some w' /\
    total_balance w' = total_balance w - amt /\
    category_breakdown w'
    = <[cat := JNum (b - amt)]> (category_breakdown w) /\
    service_bookings db1 = service_bookings db ++ [bk] /\
    service_bookings db2 = service_bookings db ++ [bk'] /\
    booking_total_price bk = tp /\ booking_gap_payment bk = gp /\
    booking_total_price bk' = tp' /\ booking_gap_payment bk' = gp' /\
    booking_ndis_covered_amount bk = booking_ndis_covered_amount bk'.
Proof.
  intros Hw Hb Hle.
  eexists _, _, _, _, _, _.
  split; [exact (create_booking_returns _ _ _ _ _ _ _ _ _ _ _ _ Hw Hb Hle)|].
  split; [exact (create_booking_returns _ _ _ _ _ _ _ _ _ _ _ _ Hw Hb Hle)|].
  cbn [wallets claims service_bookings booked].
  split; [reflexivity|]. split; [reflexivity|].
  split; [exact (wallet_of_booked _ _ _ _ _ _ _ _ _ _ _ _ Hw)|].
  cbn. split_and!; reflexivity.
Qed.

(** Also on the paths that raise, [totalPrice] and [gapPayment] play no
    part: the outcome and the wallet and claim rows are the same for any two
    choices of them. *)
Lemma price_and_gap_are_only_recorded
    ses u s t tp gp tp' gp' amt notes cat db :
  let r := create_booking_with_wallet_update timestamptz_pl_interval ses u s
             t tp amt gp notes cat db in
  let r' := create_booking_with_wallet_update timestamptz_pl_interval ses u
              s t tp' amt gp' notes cat db in
  fst r = fst r' /\
  wallets (snd r) = wallets (snd r') /\
  claims (snd r) = claims (snd r').
Proof.
  unfold create_booking_with_wallet_update, bind, select_wallet.
  destruct (wallet_of db u) as [w|]; [|now cbn].
  unfold jsonb_field_numeric.
  destruct (category_breakdown w !! cat) as [[| | d | | |]|]; try now cbn.
  unfold ret. destruct (decimal_lt d amt); now cbn.
Qed.

End LedgerFacts.

(** ** The scenarios of the design document, and the properties at work *)

(** 200 against "core" on a wallet of 1000 = 500 + 500. *)
Example scenario_core_200 :
  sample_call (dec 200) "core" sample_db = (inr 4242%N, sample_db_booked).
Proof. vm_compute. reflexivity. Qed.

(** 600 against "capital" on the same wallet. *)
Example scenario_capital_600 :
  sample_call (dec 600) "capital" sample_db
  = (inl (InsufficientFunds "capital" (dec 500)), sample_db).
Proof. vm_compute. reflexivity. Qed.

(** A category the wallet does not have. *)
Example scenario_absent_category :
  sample_call (dec 1) "transport" sample_db
  = (inl (InsufficientFunds "transport" (dec 0)), sample_db).
Proof. vm_compute. reflexivity. Qed.

(** A field of the breakdown that is not a number stops the call at the
    cast. *)
Example scenario_non_numeric_balance :
  create_booking_with_wallet_update utc_pl_interval sample_session alice
    physio 5000000%Z (dec 1) (dec 1) (dec 0) "walk-in" "core"
    {| wallets :=
         [ {| wallet_user_id := alice;
              total_balance := dec 0;
              category_breakdown := {[ "core" := JStr "n/a" ]} |} ];
       service_bookings := [];
       claims := [] |}
  = (inl (CannotCastJsonb (JStr "n/a")),
     {| wallets :=
          [ {| wallet_user_id := alice;
               total_balance := dec 0;
               category_breakdown := {[ "core" := JStr "n/a" ]} |} ];
        service_bookings := [];
        claims := [] |}).
Proof. vm_compute. reflexivity. Qed.

Lemma sufficient_balance_debits_category_witness :
  wallet_of sample_db alice = Some sample_wallet /\
  category_breakdown sample_wallet !! "core" = Some (JNum (dec 500)) /\
  dec 200 <= dec 500 /\
  exists id db' w',
    sample_call (dec 200) "core" sample_db = (inr id, db') /\
    wallet_of db' alice = Some w' /\
    total_balance w' = total_balance sample_wallet - dec 200 /\
    category_breakdown w' !! "core" = Some (JNum (dec 500 - dec 200)) /\
    (forall k, k <> "core" ->
       category_breakdown w' !! k = category_breakdown sample_wallet !! k) /\
    (forall u', u' <> alice -> wallet_of db' u' = wallet_of sample_db u').
Proof.
  split_and!; [reflexivity | reflexivity | now vm_compute |].
  apply (sufficient_balance_debits_category utc_pl_interval sample_session
           alice physio 5000000%Z (dec 250) (dec 200) (dec 50) "first visit"
           "core" sample_db sample_wallet (dec 500));
    [reflexivity | reflexivity | now vm_compute].
Defined.

Lemma insufficient_funds_raises_and_writes_nothing_witness :
  wallet_of sample_db alice = Some sample_wallet /\
  (category_breakdown sample_wallet !! "capital" = None \/
   exists b, category_breakdown sample_wallet !! "capital" = Some (JNum b) /\
             b < dec 600) /\
  exists available,
    sample_call (dec 600) "capital" sample_db
    = (inl (InsufficientFunds "capital" available), sample_db) /\
    (category_breakdown sample_wallet !! "capital" = None ->
     available = 0) /\
    (forall b, category_breakdown sample_wallet !! "capital"
               = Some (JNum b) -> available = b).
Proof.
  assert (category_breakdown sample_wallet !! "capital" = None \/
          exists b, category_breakdown sample_wallet !! "capital"
                    = Some (JNum b) /\ b < dec 600) as Hcase.
  { right. exists (dec 500). split; [reflexivity | now vm_compute]. }
  split_and!; [reflexivity | exact Hcase |].
  exact (insufficient_funds_raises_and_writes_nothing utc_pl_interval
           sample_session alice physio 5000000%Z (dec 250) (dec 600) (dec 50)
           "first visit" "capital" sample_db sample_wallet eq_refl Hcase).
Defined.

Lemma missing_wallet_raises_and_writes_nothing_witness :
  wallet_of sample_db bob = None /\
  create_booking_with_wallet_update utc_pl_interval sample_session bob physio
    5000000%Z (dec 250) (dec 200) (dec 50) "first visit" "core" sample_db
  = (inl WalletNotFound, sample_db).
Proof.
  split; [reflexivity|].
  apply (missing_wallet_raises_and_writes_nothing utc_pl_interval
           sample_session bob physio 5000000%Z (dec 250) (dec 200) (dec 50)
           "first visit" "core" sample_db).
  reflexivity.
Defined.

Lemma success_inserts_one_booking_and_one_claim_witness :
  sample_call (dec 200) "core" sample_db = (inr 4242%N, sample_db_booked) /\
  exists bk cl,
    service_bookings sample_db_booked = service_bookings sample_db ++ [bk] /\
    claims sample_db_booked = claims sample_db ++ [cl] /\
    4242%N = booking_id_col bk /\
    booking_status bk = "pending" /\
    claim_booking_id cl = booking_id_col bk /\
    claim_amount cl = dec 200 /\
    claim_status cl = "pending" /\
    claim_category cl = "core" /\
    claim_expiry_date cl = utc_pl_interval 1000000 interval_90_days.
Proof.
  assert (sample_call (dec 200) "core" sample_db
          = (inr 4242%N, sample_db_booked)) as Hcall
    by (vm_compute; reflexivity).
  split; [exact Hcall|].
  destruct (success_inserts_one_booking_and_one_claim utc_pl_interval
              sample_session alice physio 5000000%Z (dec 250) (dec 200)
              (dec 50) "first visit" "core" sample_db 4242%N sample_db_booked
              Hcall)
    as (bk & cl & H1 & H2 & H3 & H4 & _ & _ & _ & _ & _ & _ & _ & H5 & _
        & H6 & H7 & H8 & H9).
  exists bk, cl. split_and!; assumption.
Defined.

Lemma success_preserves_wallet_balanced_witness :
  wallet_of sample_db alice = Some sample_wallet /\
  wallet_balanced sample_wallet /\
  sample_call (dec 200) "core" sample_db = (inr 4242%N, sample_db_booked) /\
  exists w' b,
    wallet_of sample_db_booked alice = Some w' /\
    wallet_balanced w' /\
    category_breakdown sample_wallet !! "core" = Some (JNum b) /\
    total_balance w' = total_balance sample_wallet - dec 200 /\
    category_breakdown w' !! "core" = Some (JNum (b - dec 200)).
Proof.
  assert (wallet_balanced sample_wallet) as Hbal
    by (vm_compute; reflexivity).
  assert (sample_call (dec 200) "core" sample_db
          = (inr 4242%N, sample_db_booked)) as Hcall
    by (vm_compute; reflexivity).
  split_and!; [reflexivity | exact Hbal | exact Hcall |].
  exact (success_preserves_wallet_balanced utc_pl_interval sample_session
           alice physio 5000000%Z (dec 250) (dec 200) (dec 50) "first visit"
           "core" sample_db sample_wallet 4242%N sample_db_booked eq_refl
           Hbal Hcall).
Defined.

Lemma check_and_update_address_same_key_witness :
  create_booking_with_wallet_update utc_pl_interval sample_session alice
    physio 5000000%Z (dec 5) (dec 5) (dec 0) "walk-in" odd_category odd_db
  = (inr 4242%N, odd_db_booked) /\
  exists w w' b,
    wallet_of odd_db alice = Some w /\
    wallet_of odd_db_booked alice = Some w' /\
    category_breakdown w !! odd_category = Some (JNum b) /\
    category_breakdown w' !! odd_category = Some (JNum (b - dec 5)) /\
    (forall k, k <> odd_category ->
       category_breakdown w' !! k = category_breakdown w !! k) /\
    dom (category_breakdown w') = dom (category_breakdown w).
Proof.
  assert (create_booking_with_wallet_update utc_pl_interval sample_session
            alice physio 5000000%Z (dec 5) (dec 5) (dec 0) "walk-in"
            odd_category odd_db = (inr 4242%N, odd_db_booked)) as Hcall
    by (vm_compute; reflexivity).
  split; [exact Hcall|].
  exact (check_and_update_address_same_key utc_pl_interval sample_session
           alice physio 5000000%Z (dec 5) (dec 5) (dec 0) "walk-in" odd_category
           odd_db 4242%N odd_db_booked Hcall).
Defined.

Lemma two_identical_calls_book_twice_witness :
  wallet_of sample_db alice = Some sample_wallet /\
  category_breakdown sample_wallet !! "core" = Some (JNum (dec 500)) /\
  dec 200 <= dec 500 /\
  dec 200 <= dec 500 - dec 200 /\
  exists id1 db1 id2 db2 w2 bk1 bk2 cl1 cl2,
    create_booking_with_wallet_update utc_pl_interval
      (session_at 1000000%Z sample_db) alice physio 5000000%Z (dec 250)
      (dec 200) (dec 50) "first visit" "core" sample_db = (inr id1, db1) /\
    create_booking_with_wallet_update utc_pl_interval
      (session_at 1000000%Z db1) alice physio 5000000%Z (dec 250)
      (dec 200) (dec 50) "first visit" "core" db1 = (inr id2, db2) /\
    wallet_of db2 alice = Some w2 /\
    total_balance w2 = total_balance sample_wallet - (dec 200 + dec 200) /\
    category_breakdown w2 !! "core"
    = Some (JNum (dec 500 - (dec 200 + dec 200))) /\
    service_bookings db2 = service_bookings sample_db ++ [bk1; bk2] /\
    claims db2 = claims sample_db ++ [cl1; cl2] /\
    booking_id_col bk1 = id1 /\ booking_id_col bk2 = id2 /\
    claim_booking_id cl1 = id1 /\ claim_booking_id cl2 = id2 /\
    claim_amount cl1 = dec 200 /\ claim_amount cl2 = dec 200 /\
    id1 <> id2 /\ bk1 <> bk2 /\ cl1 <> cl2 /\
    (forall bk, List.In bk (service_bookings sample_db) ->
                booking_id_col bk <> id1 /\ booking_id_col bk <> id2).
Proof.
  split_and!;
    [reflexivity | reflexivity | now vm_compute | now vm_compute |].
  apply (two_identical_calls_book_twice utc_pl_interval 1000000%Z 1000000%Z
           alice physio 5000000%Z (dec 250) (dec 200) (dec 50)
           "first visit" "core" sample_db sample_wallet (dec 500));
    [reflexivity | reflexivity | now vm_compute | now vm_compute].
Defined.

(** The same call twice at the same [NOW()], on a table that already holds
    the booking 4242: the two calls return 4243 and 4244, and the three rows
    differ. *)
Example scenario_server_sessions :
  exists db1 db2,
    create_booking_with_wallet_update utc_pl_interval
      (session_at 1000000%Z sample_db_booked) alice physio 5000000%Z
      (dec 250) (dec 100) (dec 50) "first visit" "core" sample_db_booked
    = (inr 4243%N, db1) /\
    create_booking_with_wallet_update utc_pl_interval
      (session_at 1000000%Z db1) alice physio 5000000%Z
      (dec 250) (dec 100) (dec 50) "first visit" "core" db1
    = (inr 4244%N, db2) /\
    List.map booking_id_col (service_bookings db2)
    = [4242%N; 4243%N; 4244%N] /\
    List.map claim_booking_id (claims db2) = [4242%N; 4243%N; 4244%N] /\
    List.map total_balance (wallets db2) = [dec 600]%list.
Proof.
  eexists _, _. split; [vm_compute; reflexivity|].
  split; [vm_compute; reflexivity|].
  split_and!; vm_compute; reflexivity.
Qed.

(** [commit_transaction] in a block with a booking not yet committed: the
    call raises, the committed database is still without the booking, and
    the block is aborted.  Outside a block the three calls raise and change
    nothing. *)
Example scenario_commit_in_block :
  commit_transaction sample_backend
  = (inl InvalidTransactionTermination,
     {| committed := sample_db; block := AbortedBlock |}) /\
  begin_transaction idle_backend = (inl SyntaxError, idle_backend) /\
  commit_transaction idle_backend
  = (inl InvalidTransactionTermination, idle_backend) /\
  rollback_transaction idle_backend
  = (inl InvalidTransactionTermination, idle_backend).
Proof. split_and!; reflexivity. Qed.

(** Twice the same call on the wallet of the scenario: both return, with the
    identifiers of their sessions, and 400 is gone. *)
Example scenario_same_call_twice :
  exists db1 db2,
    sample_call (dec 200) "core" sample_db = (inr 4242%N, db1) /\
    create_booking_with_wallet_update utc_pl_interval later_session alice
      physio 5000000%Z (dec 250) (dec 200) (dec 50) "first visit" "core" db1
    = (inr 4243%N, db2) /\
    List.map total_balance (wallets db2) = [dec 600]%list /\
    List.map booking_id_col (service_bookings db2) = [4242%N; 4243%N] /\
    List.map claim_booking_id (claims db2) = [4242%N; 4243%N].
Proof.
  eexists _, _. split; [vm_compute; reflexivity|].
  split; [vm_compute; reflexivity|].
  split_and!; vm_compute; reflexivity.
Qed.

(** C9 as it is written does not hold: a non-positive amount is refused when
    the category balance lies below it.  The category holds -5 and the
    amount is -2: the call raises [InsufficientFunds]. *)
Lemma nonpositive_amount_refused_below_balance :
  wallet_of overdrawn_db alice = Some overdrawn_wallet /\
  category_breakdown overdrawn_wallet !! "core" = Some (JNum (dec (-5))) /\
  dec (-2) <= 0 /\
  create_booking_with_wallet_update utc_pl_interval sample_session alice
    physio 5000000%Z (dec 0) (dec (-2)) (dec 0) "walk-in" "core" overdrawn_db
  = (inl (InsufficientFunds "core" (dec (-5))), overdrawn_db) /\
  ~ (exists id db',
       create_booking_with_wallet_update utc_pl_interval sample_session alice
         physio 5000000%Z (dec 0) (dec (-2)) (dec 0) "walk-in" "core"
         overdrawn_db
       = (inr id, db')).
Proof.
  assert (create_booking_with_wallet_update utc_pl_interval sample_session
            alice physio 5000000%Z (dec 0) (dec (-2)) (dec 0) "walk-in" "core"
            overdrawn_db
          = (inl (InsufficientFunds "core" (dec (-5))), overdrawn_db))
    as Hcall by (vm_compute; reflexivity).
  split_and!; [reflexivity | reflexivity | now vm_compute | exact Hcall |].
  intros (id & db' & Hret). rewrite Hcall in Hret. discriminate.
Qed.

Lemma nonpositive_amount_credits_wallet_witness :
  wallet_of sample_db alice = Some sample_wallet /\
  category_breakdown sample_wallet !! "core" = Some (JNum (dec 500)) /\
  dec (-200) <= 0 /\
  dec (-200) <= dec 500 /\
  exists id db' w' cl,
    sample_call (dec (-200)) "core" sample_db = (inr id, db') /\
    wallet_of db' alice = Some w' /\
    total_balance w' = total_balance sample_wallet + Qcabs (dec (-200)) /\
    category_breakdown w' !! "core"
    = Some (JNum (dec 500 + Qcabs (dec (-200)))) /\
    total_balance sample_wallet <= total_balance w' /\
    dec 500 <= dec 500 + Qcabs (dec (-200)) /\
    claims db' = claims sample_db ++ [cl] /\
    claim_amount cl = dec (-200) /\
    claim_amount cl <= 0.
Proof.
  split_and!;
    [reflexivity | reflexivity | now vm_compute | now vm_compute |].
  apply (nonpositive_amount_credits_wallet utc_pl_interval sample_session
           alice physio 5000000%Z (dec 250) (dec (-200)) (dec 50)
           "first visit" "core" sample_db sample_wallet (dec 500));
    [reflexivity | reflexivity | now vm_compute | now vm_compute].
Defined.

(** A covered amount of -200 on the wallet of the scenario: the wallet ends
    at 1200, "core" at 700. *)
Example scenario_negative_amount :
  exists db',
    sample_call (dec (-200)) "core" sample_db = (inr 4242%N, db') /\
    List.map total_balance (wallets db') = [dec 1200]%list /\
    List.map (fun w => category_breakdown w !! "core") (wallets db')
    = [Some (JNum (dec 700))]%list /\
    List.map claim_amount (claims db') = [dec (-200)]%list.
Proof.
  eexists. split; [vm_compute; reflexivity|].
  split_and!; vm_compute; reflexivity.
Qed.

Lemma debit_depends_only_on_covered_amount_witness :
  wallet_of sample_db alice = Some sample_wallet /\
  category_breakdown sample_wallet !! "core" = Some (JNum (dec 500)) /\
  dec 200 <= dec 500 /\
  exists id db1 db2 w' bk bk',
    create_booking_with_wallet_update utc_pl_interval sample_session alice
      physio 5000000%Z (dec 1) (dec 200) (dec 999) "first visit" "core"
      sample_db = (inr id, db1) /\
    create_booking_with_wallet_update utc_pl_interval sample_session alice
      physio 5000000%Z (dec 250) (dec 200) (dec 50) "first visit" "core"
      sample_db = (inr id, db2) /\
    wallets db1 = wallets db2 /\
    claims db1 = claims db2 /\
    wallet_of db1 alice = Some w' /\
    total_balance w' = total_balance sample_wallet - dec 200 /\
    category_breakdown w'
    = <["core" := JNum (dec 500 - dec 200)]>
        (category_breakdown sample_wallet) /\
    service_bookings db1 = service_bookings sample_db ++ [bk] /\
    service_bookings db2 = service_bookings sample_db ++ [bk'] /\
    booking_total_price bk = dec 1 /\ booking_gap_payment bk = dec 999 /\
    booking_total_price bk' = dec 250 /\ booking_gap_payment bk' = dec 50 /\
    booking_ndis_covered_amount bk = booking_ndis_covered_amount bk'.
Proof.
  split_and!; [reflexivity | reflexivity | now vm_compute |].
  apply (debit_depends_only_on_covered_amount utc_pl_interval sample_session
           alice physio 5000000%Z (dec 1) (dec 999) (dec 250) (dec 50)
           (dec 200) "first visit" "core" sample_db sample_wallet (dec 500));
    [reflexivity | reflexivity | now vm_compute].
Defined.

(** * Further properties of the booking procedure *)

Section LedgerExtras.

Context {timestamptz : Type}.
Variable timestamptz_pl_interval : timestamptz -> interval -> timestamptz.

Implicit Types (db : database (timestamptz := timestamptz)).
Implicit Types (ses : session (timestamptz := timestamptz)).
Implicit Types (u s : uuid) (t : timestamptz) (tp amt gp b : decimal).
Implicit Types (notes cat : text) (w : wallet).

Lemma decimal_lt_true_inv (a b : decimal) : decimal_lt a b = true -> a < b.
Proof.
  unfold decimal_lt. intros H. apply (proj2 (Qclt_alt a b)).
  destruct (a ?= b); [discriminate | reflexivity | discriminate].
Qed.

Lemma decimal_sub_nonneg (a b : decimal) : a <= b -> 0 <= b - a.
Proof. intros H. exact (proj1 (Qcle_minus_iff a b) H). Qed.

Lemma decimal_sub_neg (a b : decimal) : a < b -> a - b < 0.
Proof.
  intros H. apply (proj2 (Qclt_minus_iff (a - b) 0)).
  replace (0 + - (a - b)) with (b + - a) by ring.
  exact (proj1 (Qclt_minus_iff a b) H).
Qed.

Lemma decimal_le_sub_r (a b c : decimal) : a <= b - c -> c + a <= b.
Proof.
  intros H. apply (proj2 (Qcle_minus_iff (c + a) b)).
  replace (b + - (c + a)) with (b - c + - a) by ring.
  exact (proj1 (Qcle_minus_iff a (b - c)) H).
Qed.

(** The ways the procedure raises, with the database at the raise. *)
Lemma create_booking_raises_inv ses u s t tp amt gp notes cat db e db' :
  create_booking_with_wallet_update timestamptz_pl_interval ses u s t tp amt gp
    notes cat db
  = (inl e, db') ->
  db' = db /\
  (wallet_of db u = None /\ e = WalletNotFound \/
   exists w,
     wallet_of db u = Some w /\
     (category_breakdown w !! cat = None /\ e = InsufficientFunds cat 0 \/
      (exists b, category_breakdown w !! cat = Some (JNum b) /\
                 b < amt /\ e = InsufficientFunds cat b) \/
      (exists v, category_breakdown w !! cat = Some v /\
                 (forall d, v <> JNum d) /\ e = CannotCastJsonb v))).
Proof.
  unfold create_booking_with_wallet_update, bind, select_wallet.
  destruct (wallet_of db u) as [w|] eqn:Hw.
  2:{ unfold raise_exception. intros [= <- <-]. split; [reflexivity|].
      left. split; reflexivity. }
  unfold jsonb_field_numeric.
  destruct (category_breakdown w !! cat) as [v|] eqn:Hv.
  2:{ unfold ret, raise_exception. intros [= <- <-]. split; [reflexivity|].
      right. exists w. split; [reflexivity|]. left. now split. }
  destruct v as [| bv | d | sv | items | fields];
    unfold ret, raise_exception.
  3:{ destruct (decimal_lt d amt) eqn:Hlt; [|discriminate].
      intros [= <- <-]. split; [reflexivity|].
      right. exists w. split; [reflexivity|]. right. left.
      exists d. split_and!; [assumption| |reflexivity].
      now apply decimal_lt_true_inv. }
  all: intros [= <- <-]; split; [reflexivity|];
    right; exists w; split; [reflexivity|]; right; right;
    eexists; split_and!; [exact Hv| |reflexivity];
    intros d; discriminate.
Qed.

(** X1: whatever the arguments and whatever the exception, the database at
    a raise is the database the call started from: every [RAISE] of the
    procedure, and the failing cast, come before its first write. *)
Theorem raise_precedes_every_write
    ses u s t tp amt gp notes cat db e db' :
  create_booking_with_wallet_update timestamptz_pl_interval ses u s t tp
    amt gp notes cat db = (inl e, db') ->
  db' = db.
Proof.
  intros Hcall. now apply create_booking_raises_inv in Hcall as [-> _].
Qed.

(** X2: [WalletNotFound] is raised exactly when no row of [wallets] has the
    user's identifier. *)
Theorem wallet_not_found_iff ses u s t tp amt gp notes cat db :
  fst (create_booking_with_wallet_update timestamptz_pl_interval ses u s t
         tp amt gp notes cat db) = inl WalletNotFound
  <-> wallet_of db u = None.
Proof.
  split.
  - destruct (create_booking_with_wallet_update _ _ _ _ _ _ _ _ _ _ db)
      as [[e|id] db'] eqn:Hcall; cbn [fst]; [|discriminate].
    intros [= ->].
    apply create_booking_raises_inv in Hcall
      as [_ [[Hw _] | (w & _ & [[_ He] | [(b & _ & _ & He)
                                        | (v & _ & _ & He)]])]];
      [exact Hw | discriminate | discriminate | discriminate].
  - intros Hw.
    unfold create_booking_with_wallet_update, bind, select_wallet.
    now rewrite Hw.
Qed.

(** X3: the procedure returns exactly when the wallet row of the user holds
    a number for the category and that number is not below the covered
    amount; nothing else is looked at. *)
Theorem returns_iff_category_covers_amount
    ses u s t tp amt gp notes cat db :
  (exists id db',
     create_booking_with_wallet_update timestamptz_pl_interval ses u s t tp
       amt gp notes cat db = (inr id, db'))
  <-> (exists w b,
         wallet_of db u = Some w /\
         category_breakdown w !! cat = Some (JNum b) /\
         amt <= b).
Proof.
  split.
  - intros (id & db' & Hcall).
    apply create_booking_returns_inv in Hcall
      as (w & b & Hw & Hb & Hle & _).
    now exists w, b.
  - intros (w & b & Hw & Hb & Hle).
    eexists _, _.
    exact (create_booking_returns timestamptz_pl_interval ses u s t tp amt
             gp notes cat db w b Hw Hb Hle).
Qed.

(** X4: leaving aside a category field that is a JSON null, which servers
    cast in different ways, [InsufficientFunds] is raised exactly when the
    wallet row exists and the category is missing or holds a number below
    the covered amount; the category it reports is the requested one and the
    balance it reports is the number found, or zero for a missing
    category. *)
Theorem insufficient_funds_iff ses u s t tp amt gp notes cat db c a :
  (forall w, wallet_of db u = Some w ->
             category_breakdown w !! cat <> Some JNull) ->
  (fst (create_booking_with_wallet_update timestamptz_pl_interval ses u s t
          tp amt gp notes cat db) = inl (InsufficientFunds c a)
   <-> (exists w,
          wallet_of db u = Some w /\ c = cat /\
          (category_breakdown w !! cat = None /\ a = 0 \/
           category_breakdown w !! cat = Some (JNum a) /\ a < amt))).
Proof.
  intros _. split.
  - destruct (create_booking_with_wallet_update _ _ _ _ _ _ _ _ _ _ db)
      as [[e|id] db'] eqn:Hcall; cbn [fst]; [|discriminate].
    intros [= ->].
    apply create_booking_raises_inv in Hcall
      as [_ [[_ He] | (w & Hw & [[Hn He] | [(b & Hb & Hlt & He)
                                          | (v & _ & _ & He)]])]];
      try discriminate.
    + injection He as -> ->. exists w. split_and!; [done..|]. now left.
    + injection He as -> ->. exists w. split_and!; [done..|]. now right.
  - intros (w & Hw & -> & Hcase).
    unfold create_booking_with_wallet_update, bind, select_wallet.
    rewrite Hw. unfold jsonb_field_numeric.
    destruct Hcase as [[Hn ->] | [Hb Hlt]].
    + now rewrite Hn.
    + rewrite Hb. unfold ret. now rewrite (decimal_lt_lt _ _ Hlt).
Qed.

(** X5: a category field that is there but is not a number (a string, a
    boolean, null, an array, an object) makes the cast fail: the call ends
    with that error, carrying the offending document, and has written
    nothing; the amount is not even compared. *)
Theorem non_numeric_balance_fails_the_cast
    ses u s t tp amt gp notes cat db w v :
  wallet_of db u = Some w ->
  category_breakdown w !! cat = Some v ->
  (forall d, v <> JNum d) ->
  create_booking_with_wallet_update timestamptz_pl_interval ses u s t tp
    amt gp notes cat db = (inl (CannotCastJsonb v), db).
Proof.
  intros Hw Hv Hnum.
  unfold create_booking_with_wallet_update, bind, select_wallet.
  rewrite Hw. unfold jsonb_field_numeric. rewrite Hv.
  destruct v; try reflexivity.
  now destruct (Hnum d).
Qed.

(** X6: the category a call has charged is never left below zero: the
    balance it writes is the one it read minus an amount that did not exceed
    it, whatever the signs of the two. *)
Theorem charged_category_never_negative
    ses u s t tp amt gp notes cat db id db' :
  create_booking_with_wallet_update timestamptz_pl_interval ses u s t tp
    amt gp notes cat db = (inr id, db') ->
  exists w' b',
    wallet_of db' u = Some w' /\
    category_breakdown w' !! cat = Some (JNum b') /\
    0 <= b'.
Proof.
  intros Hcall.
  apply create_booking_returns_inv in Hcall
    as (w & b & Hw & Hb & Hle & _ & ->).
  eexists _, (b - amt).
  split; [exact (wallet_of_booked _ _ _ _ _ _ _ _ _ _ _ _ _ Hw)|].
  cbn [category_breakdown]. unfold jsonb_set, to_jsonb.
  split; [apply lookup_insert_eq | now apply decimal_sub_nonneg].
Qed.

(** X7: [total_balance] is never compared with the amount.  A wallet whose
    total lies below the covered amount is still charged when the category
    covers it, and its total ends below zero. *)
Theorem total_balance_is_not_checked
    ses u s t tp amt gp notes cat db w b :
  wallet_of db u = Some w ->
  category_breakdown w !! cat = Some (JNum b) ->
  amt <= b ->
  total_balance w < amt ->
  exists id db' w',
    create_booking_with_wallet_update timestamptz_pl_interval ses u s t tp
      amt gp notes cat db = (inr id, db') /\
    wallet_of db' u = Some w' /\
    total_balance w' = total_balance w - amt /\
    total_balance w' < 0.
Proof.
  intros Hw Hb Hle Hlt.
  eexists _, _, _.
  split; [exact (create_booking_returns _ _ _ _ _ _ _ _ _ _ _ _ _ Hw Hb Hle)|].
  split; [exact (wallet_of_booked _ _ _ _ _ _ _ _ _ _ _ _ _ Hw)|].
  cbn [total_balance]. split; [reflexivity | now apply decimal_sub_neg].
Qed.

(** X8: booking an amount and then booking its negative puts the wallet row
    of the user back exactly as it was, total and breakdown, provided the
    first call is covered and the category was not below zero; the rows of
    other users are as before as well. *)
Theorem charge_then_negative_charge_restores_wallet
    ses1 ses2 u s t tp amt gp notes cat db w b :
  wallet_of db u = Some w ->
  category_breakdown w !! cat = Some (JNum b) ->
  amt <= b ->
  0 <= b ->
  exists id1 db1 id2 db2,
    create_booking_with_wallet_update timestamptz_pl_interval ses1 u s t tp
      amt gp notes cat db = (inr id1, db1) /\
    create_booking_with_wallet_update timestamptz_pl_interval ses2 u s t tp
      (- amt) gp notes cat db1 = (inr id2, db2) /\
    forall u', wallet_of db2 u' = wallet_of db u'.
Proof.
  intros Hw Hb Hle Hpos.
  pose proof (create_booking_returns timestamptz_pl_interval ses1 u s t tp
                amt gp notes cat db w b Hw Hb Hle) as Hcall1.
  pose proof (wallet_of_booked timestamptz_pl_interval ses1 u s t tp amt gp
                notes cat b db w Hw) as Hw1.
  set (db1 := booked timestamptz_pl_interval ses1 u s t tp amt gp notes cat
                b db) in *.
  set (w1 := {| wallet_user_id := wallet_user_id w;
                total_balance := total_balance w - amt;
                category_breakdown :=
                  jsonb_set (category_breakdown w) cat (to_jsonb (b - amt))
             |}) in *.
  assert (category_breakdown w1 !! cat = Some (JNum (b - amt))) as Hb1
    by apply lookup_insert_eq.
  assert (- amt <= b - amt) as Hle2.
  { apply (proj2 (Qcle_minus_iff (- amt) (b - amt))).
    replace (b - amt + - - amt) with (b + - 0) by ring.
    exact (proj1 (Qcle_minus_iff 0 b) Hpos). }
  pose proof (create_booking_returns timestamptz_pl_interval ses2 u s t tp
                (- amt) gp notes cat db1 w1 (b - amt) Hw1 Hb1 Hle2)
    as Hcall2.
  eexists _, db1, _, _.
  split; [exact Hcall1|]. split; [exact Hcall2|].
  intros u'. destruct (decide (u' = u)) as [->|Hne].
  - rewrite (wallet_of_booked _ _ _ _ _ _ _ _ _ _ _ _ _ Hw1), Hw.
    f_equal. subst w1. cbn [wallet_user_id total_balance category_breakdown].
    unfold jsonb_set, to_jsonb. destruct w as [wu wt wb].
    cbn [wallet_user_id total_balance category_breakdown] in *.
    f_equal.
    + ring.
    + rewrite insert_insert_eq.
      replace (b - amt - - amt) with b by ring.
      now apply insert_id.
  - rewrite (wallet_of_booked_other _ _ _ _ _ _ _ _ _ _ _ _ _ Hne).
    subst db1. now apply wallet_of_booked_other.
Qed.

(** X9: charges against two different categories can be made in either
    order: both orders go through, and they leave the same wallet row, with
    the total down by both amounts and each category down by its own. *)
Theorem charges_of_distinct_categories_commute
    ses1 ses2 u s t tp a1 a2 gp notes cat1 cat2 db w b1 b2 :
  wallet_of db u = Some w ->
  cat1 <> cat2 ->
  category_breakdown w !! cat1 = Some (JNum b1) ->
  category_breakdown w !! cat2 = Some (JNum b2) ->
  a1 <= b1 ->
  a2 <= b2 ->
  exists id1 id2 id3 id4 dbA dbA' dbB dbB' w',
    create_booking_with_wallet_update timestamptz_pl_interval ses1 u s t tp
      a1 gp notes cat1 db = (inr id1, dbA) /\
    create_booking_with_wallet_update timestamptz_pl_interval ses2 u s t tp
      a2 gp notes cat2 dbA = (inr id2, dbA') /\
    create_booking_with_wallet_update timestamptz_pl_interval ses1 u s t tp
      a2 gp notes cat2 db = (inr id3, dbB) /\
    create_booking_with_wallet_update timestamptz_pl_interval ses2 u s t tp
      a1 gp notes cat1 dbB = (inr id4, dbB') /\
    wallet_of dbA' u = Some w' /\
    wallet_of dbB' u = Some w' /\
    total_balance w' = total_balance w - a1 - a2 /\
    category_breakdown w' !! cat1 = Some (JNum (b1 - a1)) /\
    category_breakdown w' !! cat2 = Some (JNum (b2 - a2)).
Proof.
  intros Hw Hne Hb1 Hb2 Hle1 Hle2.
  pose proof (create_booking_returns timestamptz_pl_interval ses1 u s t tp
                a1 gp notes cat1 db w b1 Hw Hb1 Hle1) as HA.
  pose proof (wallet_of_booked timestamptz_pl_interval ses1 u s t tp a1 gp
                notes cat1 b1 db w Hw) as HwA.
  pose proof (create_booking_returns timestamptz_pl_interval ses1 u s t tp
                a2 gp notes cat2 db w b2 Hw Hb2 Hle2) as HB.
  pose proof (wallet_of_booked timestamptz_pl_interval ses1 u s t tp a2 gp
                notes cat2 b2 db w Hw) as HwB.
  match type of HwA with _ = Some ?x => set (wA := x) in * end.
  match type of HwB with _ = Some ?x => set (wB := x) in * end.
  assert (category_breakdown wA !! cat2 = Some (JNum b2)) as HbA.
  { cbn. unfold jsonb_set. now rewrite lookup_insert_ne. }
  assert (category_breakdown wB !! cat1 = Some (JNum b1)) as HbB.
  { cbn. unfold jsonb_set. now rewrite lookup_insert_ne. }
  pose proof (create_booking_returns timestamptz_pl_interval ses2 u s t tp
                a2 gp notes cat2 _ wA b2 HwA HbA Hle2) as HA'.
  pose proof (wallet_of_booked timestamptz_pl_interval ses2 u s t tp a2 gp
                notes cat2 b2 _ wA HwA) as HwA'.
  pose proof (create_booking_returns timestamptz_pl_interval ses2 u s t tp
                a1 gp notes cat1 _ wB b1 HwB HbB Hle1) as HB'.
  pose proof (wallet_of_booked timestamptz_pl_interval ses2 u s t tp a1 gp
                notes cat1 b1 _ wB HwB) as HwB'.
  eexists _, _, _, _, _, _, _, _, _.
  split; [exact HA|]. split; [exact HA'|].
  split; [exact HB|]. split; [exact HB'|].
  split; [exact HwA'|].
  split.
  - rewrite HwB'. f_equal. subst wA wB.
    cbn [wallet_user_id total_balance category_breakdown].
    unfold jsonb_set, to_jsonb. f_equal.
    + ring.
    + now apply insert_insert_ne.
  - subst wA. cbn [total_balance category_breakdown].
    unfold jsonb_set, to_jsonb. split_and!.
    + reflexivity.
    + rewrite lookup_insert_ne by congruence. apply lookup_insert_eq.
    + apply lookup_insert_eq.
Qed.

(** X10: two charges in a row against one category leave the wallet row
    that a single charge of the sum of the two amounts leaves, and whenever
    the two go through, so does the single one. *)
Theorem successive_charges_add_up
    ses1 ses2 ses3 u s t tp a1 a2 gp notes cat db id1 db1 id2 db2 :
  create_booking_with_wallet_update timestamptz_pl_interval ses1 u s t tp
    a1 gp notes cat db = (inr id1, db1) ->
  create_booking_with_wallet_update timestamptz_pl_interval ses2 u s t tp
    a2 gp notes cat db1 = (inr id2, db2) ->
  exists id3 db3,
    create_booking_with_wallet_update timestamptz_pl_interval ses3 u s t tp
      (a1 + a2) gp notes cat db = (inr id3, db3) /\
    forall u', wallet_of db3 u' = wallet_of db2 u'.
Proof.
  intros Hcall1 Hcall2.
  apply create_booking_returns_inv in Hcall1
    as (w & b & Hw & Hb & Hle1 & _ & ->).
  pose proof (wallet_of_booked timestamptz_pl_interval ses1 u s t tp a1 gp
                notes cat b db w Hw) as Hw1.
  apply create_booking_returns_inv in Hcall2
    as (w1 & b1 & Hw1' & Hb1 & Hle2 & _ & ->).
  rewrite Hw1 in Hw1'. injection Hw1' as <-.
  cbn [category_breakdown] in Hb1. unfold jsonb_set, to_jsonb in Hb1.
  rewrite lookup_insert_eq in Hb1. injection Hb1 as <-.
  assert (a1 + a2 <= b) as Hle by now apply decimal_le_sub_r.
  eexists _, _.
  split; [exact (create_booking_returns timestamptz_pl_interval ses3 u s t
                   tp (a1 + a2) gp notes cat db w b Hw Hb Hle)|].
  intros u'. destruct (decide (u' = u)) as [->|Hne].
  - rewrite (wallet_of_booked _ _ _ _ _ _ _ _ _ _ _ _ _ Hw).
    rewrite (wallet_of_booked _ _ _ _ _ _ _ _ _ _ _ _ _ Hw1).
    f_equal. cbn [wallet_user_id total_balance category_breakdown].
    unfold jsonb_set, to_jsonb. rewrite insert_insert_eq.
    f_equal; [ring | do 2 f_equal; ring].
  - now rewrite !wallet_of_booked_other by exact Hne.
Qed.

(** X11: a call that returns lowers the sum of the category balances of
    the wallet row by exactly the covered amount, so the gap between
    [total_balance] and that sum, whatever it was, is the same afterwards. *)
Theorem success_lowers_category_sum_by_amount
    ses u s t tp amt gp notes cat db w total id db' :
  wallet_of db u = Some w ->
  sum_category_balances (category_breakdown w) = Some total ->
  create_booking_with_wallet_update timestamptz_pl_interval ses u s t tp
    amt gp notes cat db = (inr id, db') ->
  exists w',
    wallet_of db' u = Some w' /\
    sum_category_balances (category_breakdown w') = Some (total - amt) /\
    total_balance w' - (total - amt) = total_balance w - total.
Proof.
  intros Hw Hsum Hcall.
  apply create_booking_returns_inv in Hcall
    as (w0 & b & Hw0 & Hb & _ & _ & ->).
  assert (w0 = w) as -> by congruence.
  eexists.
  split; [exact (wallet_of_booked _ _ _ _ _ _ _ _ _ _ _ _ _ Hw)|].
  cbn [total_balance category_breakdown]. split.
  - rewrite (sum_category_balances_set _ _ _ _ _ Hb Hsum).
    apply (f_equal Some). ring.
  - ring.
Qed.

(** A claim that has its booking keeps it when booking rows are added. *)
Lemma claims_backed_more_bookings
    (cs : list (claim (timestamptz := timestamptz)))
    (bs bs' : list (service_booking (timestamptz := timestamptz))) :
  forallb (fun cl => existsb (claim_backed_by cl) bs) cs = true ->
  forallb (fun cl => existsb (claim_backed_by cl) (bs ++ bs')) cs = true.
Proof.
  intros H. apply forallb_forall. intros cl Hcl.
  rewrite existsb_app.
  now rewrite (proj1 (forallb_forall _ cs) H cl Hcl).
Qed.

(** X12: if every claim row has a booking row with its identifier, its user
    and its amount as covered amount, this still holds after a call,
    whether the call returns or raises: the claim the call files refers to
    the booking the same call has inserted, and no booking is ever removed
    or changed. *)
Theorem call_keeps_claims_backed ses u s t tp amt gp notes cat db :
  claims_backed db = true ->
  claims_backed
    (snd (create_booking_with_wallet_update timestamptz_pl_interval ses u s
            t tp amt gp notes cat db)) = true.
Proof.
  intros Hdb.
  destruct (create_booking_with_wallet_update _ _ _ _ _ _ _ _ _ _ db)
    as [[e|id] db'] eqn:Hcall; cbn [snd].
  - now apply create_booking_raises_inv in Hcall as [-> _].
  - apply create_booking_returns_inv in Hcall
      as (w & b & _ & _ & _ & _ & ->).
    unfold claims_backed in *. cbn [claims service_bookings booked].
    rewrite forallb_app. apply andb_true_intro. split.
    + now apply claims_backed_more_bookings.
    + cbn [forallb]. rewrite existsb_app. cbn [existsb].
      unfold claim_backed_by at 2.
      cbn [booking_id_col booking_user_id booking_ndis_covered_amount
           claim_booking_id claim_user_id claim_amount].
      rewrite !bool_decide_eq_true_2 by reflexivity.
      cbn. now rewrite !orb_true_r.
Qed.

(** The rows of other users pass through the [UPDATE] untouched. *)
Lemma filter_other_users_update (u : uuid) (cat : text) (b amt : decimal)
    (ws : list wallet) :
  filter (fun w => wallet_user_id w <> u)
         (List.map (update_wallet_row u cat b amt) ws)
  = filter (fun w => wallet_user_id w <> u) ws.
Proof.
  induction ws as [|w ws IH]; [reflexivity|].
  cbn [List.map]. rewrite !filter_cons, IH.
  rewrite update_wallet_row_user_id.
  destruct (decide (wallet_user_id w <> u)) as [Hne|_]; [|reflexivity].
  unfold update_wallet_row. now rewrite bool_decide_eq_false_2.
Qed.

(** X13: a call never adds or removes wallet rows and never changes a
    [user_id]: the table keeps its number of rows and, taken as a bag, the
    identifiers of their users; and the rows of other users, taken as a bag,
    are the rows they were.  This holds for every outcome of the call, and
    says nothing about the order of the rows. *)
Theorem wallet_rows_are_kept ses u s t tp amt gp notes cat db :
  let db' :=
    snd (create_booking_with_wallet_update timestamptz_pl_interval ses u s t
           tp amt gp notes cat db) in
  length (wallets db') = length (wallets db) /\
  List.map wallet_user_id (wallets db')
  ≡ₚ List.map wallet_user_id (wallets db) /\
  filter (fun w => wallet_user_id w <> u) (wallets db')
  ≡ₚ filter (fun w => wallet_user_id w <> u) (wallets db).
Proof.
  destruct (create_booking_with_wallet_update _ _ _ _ _ _ _ _ _ _ db)
    as [[e|id] db'] eqn:Hcall; cbn [snd].
  - apply create_booking_raises_inv in Hcall as [-> _]. now split_and!.
  - apply create_booking_returns_inv in Hcall
      as (w0 & b & _ & _ & _ & _ & ->).
    cbn [wallets booked]. split_and!.
    + apply List.length_map.
    + rewrite List.map_map.
      rewrite (List.map_ext _ wallet_user_id); [reflexivity|].
      intros w. apply update_wallet_row_user_id.
    + now rewrite filter_other_users_update.
Qed.

(** X14: the booking table and the claim table only grow, and they grow
    together: after a call each table is the old one followed by at most
    one new row, and the two tables have got the same number of new rows,
    none when the call raises. *)
Theorem bookings_and_claims_grow_together
    ses u s t tp amt gp notes cat db :
  let r := create_booking_with_wallet_update timestamptz_pl_interval ses u s
             t tp amt gp notes cat db in
  exists bs cs,
    service_bookings (snd r) = service_bookings db ++ bs /\
    claims (snd r) = claims db ++ cs /\
    length bs = length cs /\
    (length bs <= 1)%nat /\
    (forall e, fst r = inl e -> bs = [] /\ cs = []).
Proof.
  destruct (create_booking_with_wallet_update _ _ _ _ _ _ _ _ _ _ db)
    as [[e|id] db'] eqn:Hcall; cbn [fst snd].
  - apply create_booking_raises_inv in Hcall as [-> _].
    exists [], []. rewrite !app_nil_r. split_and!; try reflexivity.
    + cbn. lia.
    + now intros _ _.
  - apply create_booking_returns_inv in Hcall
      as (w0 & b & _ & _ & _ & _ & ->).
    cbn [service_bookings claims booked].
    eexists (_ :: nil), (_ :: nil). split_and!; try reflexivity.
    intros e0 He0. discriminate.
Qed.

(** X15: the balance the [UPDATE] writes is computed from the row the
    [SELECT] has read.  When several wallet rows carry the user's
    identifier, each of them gets the category balance of the first one
    minus the amount, whatever it held itself, while its total goes down
    from its own value. *)
Theorem every_row_of_user_gets_first_rows_balance
    ses u s t tp amt gp notes cat db w b :
  wallet_of db u = Some w ->
  category_breakdown w !! cat = Some (JNum b) ->
  amt <= b ->
  exists id db',
    create_booking_with_wallet_update timestamptz_pl_interval ses u s t tp
      amt gp notes cat db = (inr id, db') /\
    forall (i : nat) w2,
      wallets db !! i = Some w2 ->
      wallet_user_id w2 = u ->
      exists w2',
        wallets db' !! i = Some w2' /\
        category_breakdown w2' !! cat = Some (JNum (b - amt)) /\
        total_balance w2' = total_balance w2 - amt.
Proof.
  intros Hw Hb Hle.
  eexists _, _.
  split; [exact (create_booking_returns _ _ _ _ _ _ _ _ _ _ _ _ _ Hw Hb Hle)|].
  intros i w2 Hi Hu. cbn [wallets booked].
  change (List.map ?f ?l) with (f <$> l).
  rewrite list_lookup_fmap, Hi. cbn [fmap option_fmap option_map].
  eexists. split; [reflexivity|].
  unfold update_wallet_row. rewrite bool_decide_eq_true_2 by exact Hu.
  cbn [category_breakdown total_balance]. unfold jsonb_set, to_jsonb.
  split; [apply lookup_insert_eq | reflexivity].
Qed.

End LedgerExtras.

(** * The housing detail screen: the SDA badge *)

Section SdaBadgeFacts.

Variable toUpperCase : list N -> list N.

Local Open Scope list_scope.

Lemma split_nonempty (sep : N) (s : list N) : JsString.split sep s <> [].
Proof.
  destruct s as [|c rest]; cbn; [discriminate|].
  case_bool_decide; [discriminate|].
  destruct (JsString.split sep rest); discriminate.
Qed.

(** Splitting goes through an occurrence of the separator. *)
Lemma split_app (sep : N) (s1 s2 : list N) :
  JsString.split sep (s1 ++ sep :: s2)
  = JsString.split sep s1 ++ JsString.split sep s2.
Proof.
  induction s1 as [|c rest IH]; cbn.
  - now rewrite bool_decide_eq_true_2.
  - case_bool_decide; [now rewrite IH|].
    rewrite IH.
    pose proof (split_nonempty sep rest) as Hne.
    destruct (JsString.split sep rest); [contradiction|reflexivity].
Qed.

Lemma join_cons_cons (sep p q : list N) (l : list (list N)) :
  JsString.join sep (p :: q :: l) = p ++ sep ++ JsString.join sep (q :: l).
Proof. reflexivity. Qed.

Lemma join_app (sep : list N) (l1 l2 : list (list N)) :
  l1 <> [] -> l2 <> [] ->
  JsString.join sep (l1 ++ l2)
  = JsString.join sep l1 ++ sep ++ JsString.join sep l2.
Proof.
  intros H1 H2. induction l1 as [|p l1 IH]; [contradiction|].
  destruct l1 as [|q l1].
  - destruct l2; [contradiction|reflexivity].
  - specialize (IH ltac:(discriminate)). cbn [app] in *.
    rewrite !join_cons_cons, IH. now rewrite <- !app_assoc.
Qed.

Lemma join_cons_head (sep : list N) (c : N) (p : list N)
    (ps : list (list N)) :
  JsString.join sep ((c :: p) :: ps) = c :: JsString.join sep (p :: ps).
Proof. destruct ps; reflexivity. Qed.

(** The pieces of a split hold no separator. *)
Lemma split_pieces_free (sep : N) (s : list N) :
  Forall (fun piece => sep ∉ piece) (JsString.split sep s).
Proof.
  induction s as [|c rest IH]; cbn.
  - constructor; [apply not_elem_of_nil|constructor].
  - case_bool_decide as Hc.
    + constructor; [apply not_elem_of_nil|exact IH].
    + destruct (JsString.split sep rest) as [|piece pieces].
      * constructor; [|constructor].
        intros Hin. apply list_elem_of_singleton in Hin. congruence.
      * inversion IH as [|? ? Hp Hps]; subst. constructor; [|exact Hps].
        intros Hin. apply elem_of_cons in Hin as [->|Hin]; tauto.
Qed.

(** X16: the badge text of a category code made of two parts around an
    underscore is the badge text of the first part, a space, and the badge
    text of the second part, for every case mapping: the underscore is
    replaced by one space and the parts are treated on their own. *)
Theorem sda_badge_text_underscore (s1 s2 : list N) :
  sda_badge_text toUpperCase (s1 ++ JsString.underscore :: s2)
  = sda_badge_text toUpperCase s1
    ++ JsString.space :: sda_badge_text toUpperCase s2.
Proof.
  unfold sda_badge_text.
  rewrite split_app, List.map_app, join_app; [reflexivity| |].
  - intros H. apply List.map_eq_nil in H. now apply split_nonempty in H.
  - intros H. apply List.map_eq_nil in H. now apply split_nonempty in H.
Qed.

Lemma capitalize_word_free (word : list N) :
  JsString.underscore ∉ toUpperCase [] ->
  (forall c, c <> JsString.underscore ->
             JsString.underscore ∉ toUpperCase [c]) ->
  JsString.underscore ∉ word ->
  JsString.underscore ∉ capitalize_word toUpperCase word.
Proof.
  intros Hnil Hone Hword. unfold capitalize_word.
  intros Hin. apply elem_of_app in Hin as [Hin|Hin].
  - destruct word as [|c rest]; cbn in Hin; [now apply Hnil|].
    apply (Hone c); [|exact Hin].
    intros ->. apply Hword. left.
  - destruct word as [|c rest]; cbn in Hin.
    + now apply not_elem_of_nil in Hin.
    + apply Hword. now right.
Qed.

Lemma join_free (x : N) (sep : list N) (parts : list (list N)) :
  x ∉ sep ->
  Forall (fun part => x ∉ part) parts ->
  x ∉ JsString.join sep parts.
Proof.
  intros Hsep Hparts.
  induction Hparts as [|p [|q ps] Hp Hps IH]; cbn [JsString.join].
  - apply not_elem_of_nil.
  - exact Hp.
  - intros Hin. apply elem_of_app in Hin as [Hin|Hin]; [tauto|].
    apply elem_of_app in Hin as [Hin|Hin]; tauto.
Qed.

(** X17: no underscore is left in the badge text, whatever the category
    code is (empty, with leading, trailing or doubled underscores), as long
    as upper-casing does not itself produce an underscore. *)
Theorem sda_badge_text_has_no_underscore (s : list N) :
  JsString.underscore ∉ toUpperCase [] ->
  (forall c, c <> JsString.underscore ->
             JsString.underscore ∉ toUpperCase [c]) ->
  JsString.underscore ∉ sda_badge_text toUpperCase s.
Proof.
  intros Hnil Hone. unfold sda_badge_text.
  apply join_free.
  - intros Hin. apply list_elem_of_singleton in Hin. discriminate.
  - apply List.Forall_map.
    eapply Forall_impl; [apply split_pieces_free|].
    intros word Hword. now apply capitalize_word_free.
Qed.

Section Ascii.

Hypothesis toUpperCase_empty : toUpperCase [] = [].
Hypothesis toUpperCase_ascii :
  forall c, (c < 128)%N -> toUpperCase [c] = [JsString.ascii_upper c].

(** On ASCII text the badge text is the single pass. *)
Lemma sda_badge_text_pass (s : list N) :
  Forall (fun c => (c < 128)%N) s ->
  sda_badge_text toUpperCase s = badge_pass JsString.ascii_upper true s
  /\ (forall w ws,
        JsString.split JsString.underscore s = w :: ws ->
        JsString.join [JsString.space]
          (w :: List.map (capitalize_word toUpperCase) ws)
        = badge_pass JsString.ascii_upper false s).
Proof.
  unfold sda_badge_text.
  induction 1 as [|c rest Hc Hrest [IHa IHb]]; cbn [JsString.split].
  - split; [cbn; unfold capitalize_word; cbn;
            now rewrite toUpperCase_empty|].
    intros w ws [= <- <-]. reflexivity.
  - cbn [badge_pass]. case_bool_decide as Hu.
    + pose proof (split_nonempty JsString.underscore rest) as Hne.
      assert (forall p, JsString.join [JsString.space]
                (p :: List.map (capitalize_word toUpperCase)
                        (JsString.split JsString.underscore rest))
              = p ++ JsString.space
                  :: badge_pass JsString.ascii_upper true rest) as Hj.
      { intros p. rewrite <- IHa.
        destruct (JsString.split JsString.underscore rest);
          [contradiction|reflexivity]. }
      split.
      * cbn [List.map]. rewrite Hj. unfold capitalize_word. cbn.
        now rewrite toUpperCase_empty.
      * intros w ws [= <- <-]. now rewrite Hj.
    + destruct (JsString.split JsString.underscore rest) as [|w ws] eqn:Hs;
        [now apply split_nonempty in Hs|].
      specialize (IHb w ws eq_refl).
      split.
      * cbn [List.map].
        assert (capitalize_word toUpperCase (c :: w)
                = JsString.ascii_upper c :: w) as ->.
        { unfold capitalize_word. cbn.
          now rewrite (toUpperCase_ascii c Hc). }
        now rewrite join_cons_head, IHb.
      * intros w' ws' [= <- <-]. now rewrite join_cons_head, IHb.
Qed.

Lemma badge_pass_length (upper : N -> N) (start : bool) (s : list N) :
  length (badge_pass upper start s) = length s.
Proof.
  revert start. induction s as [|c rest IH]; intros start; cbn;
    [reflexivity|].
  case_bool_decide; cbn; now rewrite IH.
Qed.

Lemma badge_pass_lookup (upper : N -> N) (s : list N) :
  forall (start : bool) (i : nat) (c : N),
    s !! i = Some c ->
    badge_pass upper start s !! i
    = Some (if bool_decide (c = JsString.underscore) then JsString.space
            else if match i with
                    | O => start
                    | S j => bool_decide (s !! j = Some JsString.underscore)
                    end
                 then upper c else c).
Proof.
  induction s as [|c0 rest IH]; intros start i c Hi; [discriminate|].
  destruct i as [|i].
  - cbn in Hi. injection Hi as ->. cbn [badge_pass].
    now case_bool_decide.
  - cbn in Hi. cbn [badge_pass].
    assert (forall x (l : list N), (x :: l) !! S i = l !! i) as Hcons
      by reflexivity.
    case_bool_decide as Hu; rewrite Hcons, (IH _ i c Hi);
      destruct i as [|j]; try reflexivity.
    + cbn. now rewrite (bool_decide_eq_true_2 (Some c0 = Some _))
        by now rewrite Hu.
    + cbn. rewrite (bool_decide_eq_false_2 (Some c0 = Some _));
        [reflexivity|congruence].
Qed.

(** X18: on an ASCII category code the badge text has the length of the
    code, and unit by unit it is the code with every underscore turned into
    a space, every unit that opens a word (the first unit, and any unit
    after an underscore) in upper case, and every other unit unchanged. *)
Theorem sda_badge_text_ascii (s : list N) :
  Forall (fun c => (c < 128)%N) s ->
  length (sda_badge_text toUpperCase s) = length s /\
  forall (i : nat) (c : N),
    s !! i = Some c ->
    sda_badge_text toUpperCase s !! i
    = Some (if bool_decide (c = JsString.underscore) then JsString.space
            else if match i with
                    | O => true
                    | S j => bool_decide (s !! j = Some JsString.underscore)
                    end
                 then JsString.ascii_upper c else c).
Proof.
  intros Hs. destruct (sda_badge_text_pass s Hs) as [-> _].
  split; [apply badge_pass_length|].
  intros i c Hi. now apply badge_pass_lookup.
Qed.

End Ascii.

End SdaBadgeFacts.

(** * The housing detail screen: loading and rendering *)

Section ScreenFacts.

Context {HousingListing : Type}.

Implicit Types (st : screen_state (HousingListing := HousingListing)).
Implicit Types (datas : list (option HousingListing)).

Local Open Scope list_scope.

(** A load whose query gave no error leaves [error] alone. *)
Lemma successful_loads_keep_error datas st :
  error (loadListings (List.map (fun d => Resolved d None) datas) st)
  = error st.
Proof.
  revert st. induction datas as [|d datas IH]; intros st; [reflexivity|].
  cbn [List.map loadListings List.fold_left].
  change (List.fold_left _ ?qs ?x) with (loadListings qs x).
  now rewrite IH.
Qed.

(** Every load ends with [loading] switched off. *)
Lemma loads_end_not_loading (qs : list query_outcome) q st :
  loading (loadListings (qs ++ [q]) st) = false.
Proof.
  unfold loadListings. rewrite List.fold_left_app. reflexivity.
Qed.

(** X19: [loadListing] never resets [error].  Once a load has failed with a
    text that is not empty, later loads that succeed do not bring the
    listing back: however many follow and whatever they fetch, the screen
    shows the error view with the text of that failure. *)
Theorem successful_reloads_do_not_clear_error st q e datas :
  q = Rejected e \/ (exists data, q = Resolved data (Some e)) ->
  catch_text e <> [] ->
  render (loadListings (List.map (fun d => Resolved d None) datas)
            (loadListing q st))
  = ErrorView (catch_text e).
Proof.
  intros Hq Htext.
  assert (error (loadListing q st) = Some (catch_text e)) as Herr
    by (destruct Hq as [-> | [data ->]]; reflexivity).
  assert (loading (loadListing q st) = false) as Hload by reflexivity.
  pose proof (successful_loads_keep_error datas (loadListing q st)) as Hkeep.
  rewrite Herr in Hkeep.
  assert (loading (loadListings (List.map (fun d => Resolved d None) datas)
                     (loadListing q st)) = false) as Hload'.
  { destruct datas as [|d datas] using rev_ind; [exact Hload|].
    rewrite List.map_app. apply loads_end_not_loading. }
  unfold render. rewrite Hload', Hkeep.
  destruct (catch_text e) as [|c rest]; [contradiction|].
  cbn. now destruct (listing _).
Qed.

(** X20: on a screen that holds no error, after any run of loads that
    succeed the detail view shows the listing fetched last. *)
Theorem last_fetched_listing_is_shown st datas shown :
  truthy (error st) = false ->
  render (loadListings
            (List.map (fun d => Resolved d None) (datas ++ [Some shown]))
            st)
  = DetailView shown.
Proof.
  intros Herr. rewrite List.map_app. cbn [List.map].
  pose proof (successful_loads_keep_error datas st) as Hkeep.
  unfold loadListings in *. rewrite List.fold_left_app.
  cbn [List.fold_left].
  set (st' := List.fold_left _ _ st) in *.
  unfold render. cbn. now rewrite Hkeep, Herr.
Qed.

End ScreenFacts.

(** * The further properties at work *)

Lemma raise_precedes_every_write_witness :
  sample_call (dec 600) "capital" sample_db
  = (inl (InsufficientFunds "capital" (dec 500)), sample_db) /\
  sample_db = sample_db.
Proof.
  assert (sample_call (dec 600) "capital" sample_db
          = (inl (InsufficientFunds "capital" (dec 500)), sample_db))
    as Hcall by (vm_compute; reflexivity).
  split; [exact Hcall|].
  exact (raise_precedes_every_write utc_pl_interval sample_session alice
           physio 5000000%Z (dec 250) (dec 600) (dec 50) "first visit"
           "capital" sample_db _ sample_db Hcall).
Defined.

Lemma insufficient_funds_iff_witness :
  (forall w, wallet_of sample_db alice = Some w ->
             category_breakdown w !! "capital" <> Some JNull) /\
  (fst (sample_call (dec 600) "capital" sample_db)
   = inl (InsufficientFunds "capital" (dec 500))
   <-> (exists w,
          wallet_of sample_db alice = Some w /\ "capital" = "capital" /\
          (category_breakdown w !! "capital" = None /\ dec 500 = 0 \/
           category_breakdown w !! "capital" = Some (JNum (dec 500)) /\
           dec 500 < dec 600))).
Proof.
  assert (forall w, wallet_of sample_db alice = Some w ->
                    category_breakdown w !! "capital" <> Some JNull)
    as Hnull.
  { intros w Hw. injection Hw as <-. intros H. vm_compute in H.
    discriminate. }
  split; [exact Hnull|].
  exact (insufficient_funds_iff utc_pl_interval sample_session alice physio
           5000000%Z (dec 250) (dec 600) (dec 50) "first visit" "capital"
           sample_db "capital" (dec 500) Hnull).
Defined.

Lemma non_numeric_balance_fails_the_cast_witness :
  wallet_of malformed_db alice = Some malformed_wallet /\
  category_breakdown malformed_wallet !! "core" = Some (JStr "500") /\
  (forall d, JStr "500" <> JNum d) /\
  sample_call (dec 200) "core" malformed_db
  = (inl (CannotCastJsonb (JStr "500")), malformed_db).
Proof.
  assert (forall d, JStr "500" <> JNum d) as Hnum
    by (intros d; discriminate).
  split_and!; [reflexivity | reflexivity | exact Hnum |].
  exact (non_numeric_balance_fails_the_cast utc_pl_interval sample_session
           alice physio 5000000%Z (dec 250) (dec 200) (dec 50) "first visit"
           "core" malformed_db malformed_wallet (JStr "500") eq_refl eq_refl
           Hnum).
Defined.

Lemma charged_category_never_negative_witness :
  sample_call (dec 200) "core" sample_db = (inr 4242%N, sample_db_booked) /\
  exists w' b',
    wallet_of sample_db_booked alice = Some w' /\
    category_breakdown w' !! "core" = Some (JNum b') /\
    0 <= b'.
Proof.
  assert (sample_call (dec 200) "core" sample_db
          = (inr 4242%N, sample_db_booked)) as Hcall
    by (vm_compute; reflexivity).
  split; [exact Hcall|].
  exact (charged_category_never_negative utc_pl_interval sample_session
           alice physio 5000000%Z (dec 250) (dec 200) (dec 50) "first visit"
           "core" sample_db 4242%N sample_db_booked Hcall).
Defined.

Lemma total_balance_is_not_checked_witness :
  wallet_of thin_db alice = Some thin_wallet /\
  category_breakdown thin_wallet !! "core" = Some (JNum (dec 500)) /\
  dec 200 <= dec 500 /\
  total_balance thin_wallet < dec 200 /\
  exists id db' w',
    sample_call (dec 200) "core" thin_db = (inr id, db') /\
    wallet_of db' alice = Some w' /\
    total_balance w' = total_balance thin_wallet - dec 200 /\
    total_balance w' < 0.
Proof.
  split_and!;
    [reflexivity | reflexivity | now vm_compute | now vm_compute |].
  apply (total_balance_is_not_checked utc_pl_interval sample_session alice
           physio 5000000%Z (dec 250) (dec 200) (dec 50) "first visit" "core"
           thin_db thin_wallet (dec 500));
    [reflexivity | reflexivity | now vm_compute | now vm_compute].
Defined.

(** 200 against a wallet of total 100 whose "core" holds 500: the total
    ends at -100. *)
Example scenario_total_below_amount :
  exists db',
    sample_call (dec 200) "core" thin_db = (inr 4242%N, db') /\
    List.map total_balance (wallets db') = [dec (-100)]%list.
Proof.
  eexists. split; vm_compute; reflexivity.
Qed.

Lemma charge_then_negative_charge_restores_wallet_witness :
  wallet_of sample_db alice = Some sample_wallet /\
  category_breakdown sample_wallet !! "core" = Some (JNum (dec 500)) /\
  dec 200 <= dec 500 /\
  0 <= dec 500 /\
  exists id1 db1 id2 db2,
    create_booking_with_wallet_update utc_pl_interval sample_session alice
      physio 5000000%Z (dec 250) (dec 200) (dec 50) "first visit" "core"
      sample_db = (inr id1, db1) /\
    create_booking_with_wallet_update utc_pl_interval later_session alice
      physio 5000000%Z (dec 250) (- dec 200) (dec 50) "first visit" "core"
      db1 = (inr id2, db2) /\
    forall u', wallet_of db2 u' = wallet_of sample_db u'.
Proof.
  split_and!;
    [reflexivity | reflexivity | now vm_compute | now vm_compute |].
  apply (charge_then_negative_charge_restores_wallet utc_pl_interval
           sample_session later_session alice physio 5000000%Z (dec 250)
           (dec 200) (dec 50) "first visit" "core" sample_db sample_wallet
           (dec 500));
    [reflexivity | reflexivity | now vm_compute | now vm_compute].
Defined.

Lemma charges_of_distinct_categories_commute_witness :
  wallet_of sample_db alice = Some sample_wallet /\
  "core" <> "capital" /\
  category_breakdown sample_wallet !! "core" = Some (JNum (dec 500)) /\
  category_breakdown sample_wallet !! "capital" = Some (JNum (dec 500)) /\
  dec 200 <= dec 500 /\
  dec 100 <= dec 500 /\
  exists id1 id2 id3 id4 dbA dbA' dbB dbB' w',
    create_booking_with_wallet_update utc_pl_interval sample_session alice
      physio 5000000%Z (dec 250) (dec 200) (dec 50) "first visit" "core"
      sample_db = (inr id1, dbA) /\
    create_booking_with_wallet_update utc_pl_interval later_session alice
      physio 5000000%Z (dec 250) (dec 100) (dec 50) "first visit" "capital"
      dbA = (inr id2, dbA') /\
    create_booking_with_wallet_update utc_pl_interval sample_session alice
      physio 5000000%Z (dec 250) (dec 100) (dec 50) "first visit" "capital"
      sample_db = (inr id3, dbB) /\
    create_booking_with_wallet_update utc_pl_interval later_session alice
      physio 5000000%Z (dec 250) (dec 200) (dec 50) "first visit" "core"
      dbB = (inr id4, dbB') /\
    wallet_of dbA' alice = Some w' /\
    wallet_of dbB' alice = Some w' /\
    total_balance w' = total_balance sample_wallet - dec 200 - dec 100 /\
    category_breakdown w' !! "core" = Some (JNum (dec 500 - dec 200)) /\
    category_breakdown w' !! "capital" = Some (JNum (dec 500 - dec 100)).
Proof.
  split_and!;
    [reflexivity | discriminate | reflexivity | reflexivity
     | now vm_compute | now vm_compute |].
  apply (charges_of_distinct_categories_commute utc_pl_interval
           sample_session later_session alice physio 5000000%Z (dec 250)
           (dec 200) (dec 100) (dec 50) "first visit" "core" "capital"
           sample_db sample_wallet (dec 500) (dec 500));
    [reflexivity | discriminate | reflexivity | reflexivity
     | now vm_compute | now vm_compute].
Defined.

Lemma successive_charges_add_up_witness :
  let db2 :=
    snd (create_booking_with_wallet_update utc_pl_interval later_session
           alice physio 5000000%Z (dec 250) (dec 100) (dec 50) "first visit"
           "core" sample_db_booked) in
  create_booking_with_wallet_update utc_pl_interval sample_session alice
    physio 5000000%Z (dec 250) (dec 200) (dec 50) "first visit" "core"
    sample_db = (inr 4242%N, sample_db_booked) /\
  create_booking_with_wallet_update utc_pl_interval later_session alice
    physio 5000000%Z (dec 250) (dec 100) (dec 50) "first visit" "core"
    sample_db_booked = (inr 4243%N, db2) /\
  exists id3 db3,
    create_booking_with_wallet_update utc_pl_interval sample_session alice
      physio 5000000%Z (dec 250) (dec 200 + dec 100) (dec 50) "first visit"
      "core" sample_db = (inr id3, db3) /\
    forall u', wallet_of db3 u' = wallet_of db2 u'.
Proof.
  intros db2.
  assert (create_booking_with_wallet_update utc_pl_interval sample_session
            alice physio 5000000%Z (dec 250) (dec 200) (dec 50)
            "first visit" "core" sample_db = (inr 4242%N, sample_db_booked))
    as H1 by (vm_compute; reflexivity).
  assert (create_booking_with_wallet_update utc_pl_interval later_session
            alice physio 5000000%Z (dec 250) (dec 100) (dec 50)
            "first visit" "core" sample_db_booked = (inr 4243%N, db2))
    as H2 by (vm_compute; reflexivity).
  split; [exact H1|]. split; [exact H2|].
  exact (successive_charges_add_up utc_pl_interval sample_session
           later_session sample_session alice physio 5000000%Z (dec 250)
           (dec 200) (dec 100) (dec 50) "first visit" "core" sample_db
           4242%N sample_db_booked 4243%N db2 H1 H2).
Defined.

Lemma success_lowers_category_sum_by_amount_witness :
  wallet_of sample_db alice = Some sample_wallet /\
  sum_category_balances (category_breakdown sample_wallet)
  = Some (dec 1000) /\
  sample_call (dec 200) "core" sample_db = (inr 4242%N, sample_db_booked) /\
  exists w',
    wallet_of sample_db_booked alice = Some w' /\
    sum_category_balances (category_breakdown w')
    = Some (dec 1000 - dec 200) /\
    total_balance w' - (dec 1000 - dec 200)
    = total_balance sample_wallet - dec 1000.
Proof.
  assert (sum_category_balances (category_breakdown sample_wallet)
          = Some (dec 1000)) as Hsum by (vm_compute; reflexivity).
  assert (sample_call (dec 200) "core" sample_db
          = (inr 4242%N, sample_db_booked)) as Hcall
    by (vm_compute; reflexivity).
  split_and!; [reflexivity | exact Hsum | exact Hcall |].
  exact (success_lowers_category_sum_by_amount utc_pl_interval
           sample_session alice physio 5000000%Z (dec 250) (dec 200) (dec 50)
           "first visit" "core" sample_db sample_wallet (dec 1000) 4242%N
           sample_db_booked eq_refl Hsum Hcall).
Defined.

Lemma call_keeps_claims_backed_witness :
  claims_backed sample_db_booked = true /\
  claims_backed
    (snd (create_booking_with_wallet_update utc_pl_interval later_session
            alice physio 5000000%Z (dec 250) (dec 100) (dec 50)
            "first visit" "core" sample_db_booked)) = true.
Proof.
  assert (claims_backed sample_db_booked = true) as Hdb
    by (vm_compute; reflexivity).
  split; [exact Hdb|].
  exact (call_keeps_claims_backed utc_pl_interval later_session alice physio
           5000000%Z (dec 250) (dec 100) (dec 50) "first visit" "core"
           sample_db_booked Hdb).
Defined.

Lemma every_row_of_user_gets_first_rows_balance_witness :
  wallet_of crowded_db alice = Some sample_wallet /\
  category_breakdown sample_wallet !! "core" = Some (JNum (dec 500)) /\
  dec 200 <= dec 500 /\
  exists id db',
    sample_call (dec 200) "core" crowded_db = (inr id, db') /\
    forall (i : nat) w2,
      wallets crowded_db !! i = Some w2 ->
      wallet_user_id w2 = alice ->
      exists w2',
        wallets db' !! i = Some w2' /\
        category_breakdown w2' !! "core" = Some (JNum (dec 500 - dec 200)) /\
        total_balance w2' = total_balance w2 - dec 200.
Proof.
  split_and!; [reflexivity | reflexivity | now vm_compute |].
  apply (every_row_of_user_gets_first_rows_balance utc_pl_interval
           sample_session alice physio 5000000%Z (dec 250) (dec 200) (dec 50)
           "first visit" "core" crowded_db sample_wallet (dec 500));
    [reflexivity | reflexivity | now vm_compute].
Defined.

(** Two rows for one user: the second row held 50 in "core" and ends with
    300, the first row's 500 minus 200, while its total ends at 50 - 200;
    the row of the other user is as before. *)
Example scenario_two_rows_for_one_user :
  exists db',
    sample_call (dec 200) "core" crowded_db = (inr 4242%N, db') /\
    List.map (fun w => category_breakdown w !! "core") (wallets db')
    = [Some (JNum (dec 300)); Some (JNum (dec 70));
       Some (JNum (dec 300))]%list /\
    List.map total_balance (wallets db')
    = [dec 800; dec 70; dec (-150)]%list.
Proof.
  eexists. split; [vm_compute; reflexivity|].
  split; vm_compute; reflexivity.
Qed.

(** The badge of some category codes, with the edge cases of the split:
    the empty code, a doubled underscore and a leading underscore. *)
Example badge_high_physical_support :
  sda_badge_text JsString.ascii_toUpperCase
    (JsString.of_ascii "high_physical_support")
  = JsString.of_ascii "High Physical Support".
Proof. vm_compute. reflexivity. Qed.

Example badge_edge_cases :
  sda_badge_text JsString.ascii_toUpperCase nil = nil /\
  sda_badge_text JsString.ascii_toUpperCase (JsString.of_ascii "a__b")
  = JsString.of_ascii "A  B" /\
  sda_badge_text JsString.ascii_toUpperCase (JsString.of_ascii "_robust")
  = JsString.of_ascii " Robust" /\
  sda_badge_text JsString.ascii_toUpperCase (JsString.of_ascii "Basic_")
  = JsString.of_ascii "Basic ".
Proof. split_and!; vm_compute; reflexivity. Qed.

Lemma ascii_toUpperCase_keeps_underscore_out (c : N) :
  c <> JsString.underscore ->
  JsString.underscore ∉ JsString.ascii_toUpperCase (c :: nil).
Proof.
  intros Hc Hin. apply list_elem_of_singleton in Hin.
  unfold JsString.ascii_upper, JsString.underscore in *.
  case_bool_decide; lia.
Qed.

Lemma sda_badge_text_has_no_underscore_witness :
  (JsString.underscore ∉ JsString.ascii_toUpperCase nil) /\
  (forall c, c <> JsString.underscore ->
             JsString.underscore ∉ JsString.ascii_toUpperCase (c :: nil)) /\
  JsString.underscore
  ∉ sda_badge_text JsString.ascii_toUpperCase
      (JsString.of_ascii "high_physical_support").
Proof.
  split_and!;
    [apply not_elem_of_nil | exact ascii_toUpperCase_keeps_underscore_out |].
  exact (sda_badge_text_has_no_underscore JsString.ascii_toUpperCase
           (JsString.of_ascii "high_physical_support")
           (not_elem_of_nil _) ascii_toUpperCase_keeps_underscore_out).
Defined.

Lemma sda_badge_text_ascii_witness :
  JsString.ascii_toUpperCase nil = nil /\
  (forall c, (c < 128)%N ->
     JsString.ascii_toUpperCase (c :: nil)
     = (JsString.ascii_upper c :: nil)) /\
  Forall (fun c => (c < 128)%N) accessible_code /\
  length (sda_badge_text JsString.ascii_toUpperCase
            accessible_code)
  = length accessible_code /\
  forall (i : nat) (c : N),
    accessible_code !! i = Some c ->
    sda_badge_text JsString.ascii_toUpperCase
      accessible_code !! i
    = Some (if bool_decide (c = JsString.underscore) then JsString.space
            else if match i with
                    | O => true
                    | S j =>
                        bool_decide
                          (accessible_code !! j
                           = Some JsString.underscore)
                    end
                 then JsString.ascii_upper c else c).
Proof.
  assert (Forall (fun c => (c < 128)%N)
            accessible_code) as Hascii
    by (vm_compute; repeat constructor).
  split_and!;
    [reflexivity | intros c _; reflexivity | exact Hascii | |];
    apply (sda_badge_text_ascii JsString.ascii_toUpperCase eq_refl
             (fun c _ => eq_refl) accessible_code
             Hascii).
Defined.

Lemma successful_reloads_do_not_clear_error_witness :
  (failed_query = Rejected OtherValue \/
   exists data, failed_query = Resolved data (Some OtherValue)) /\
  catch_text OtherValue <> nil /\
  render (loadListings
            (List.map (fun d => Resolved d None)
                      (Some 7%nat :: Some 8%nat :: nil))
            (loadListing failed_query fresh_screen))
  = ErrorView (catch_text OtherValue).
Proof.
  assert (catch_text OtherValue <> nil) as Htext
    by (vm_compute; discriminate).
  split_and!; [now left | exact Htext |].
  exact (successful_reloads_do_not_clear_error fresh_screen
           failed_query OtherValue
           (Some 7%nat :: Some 8%nat :: nil) (or_introl eq_refl) Htext).
Defined.

Lemma last_fetched_listing_is_shown_witness :
  truthy (error fresh_screen) = false /\
  render (loadListings
            (List.map (fun d => Resolved d None)
                      ((None :: Some 3%nat :: nil) ++ (Some 9%nat :: nil)))
            fresh_screen)
  = DetailView 9%nat.
Proof.
  split; [reflexivity|].
  exact (last_fetched_listing_is_shown fresh_screen
           (None :: Some 3%nat :: nil) 9%nat eq_refl).
Defined.

(** A failed load, then the listing arrives: the error view stays. *)
Example scenario_error_outlives_reload :
  render (loadListing (Resolved (Some 7%nat) None)
            (loadListing
               (Resolved None
                  (Some (ErrorInstance (JsString.of_ascii "timeout"))))
               fresh_screen))
  = ErrorView (JsString.of_ascii "timeout").
Proof. vm_compute. reflexivity. Qed.
